(** * pyeo: raster alignment, stacking and mask combination

    A shallow embedding of the geometry and stacking functions of
    [pyeo/core.py] ([stack_images], [combine_masks], [create_new_stacks]
    and the helpers they call), with the properties of the written
    specification stated over it.

    Conventions of the embedding.
    - Python exceptions are values of [exn]; a function that can raise
      returns [result A].
    - Numbers come in two layers.  The functions that stack, combine and
      select rasters are embedded with GDAL's coefficients and OGR's
      coordinates as exact rationals ([Q]); the properties stated over
      them are about which bands, files and exceptions the code produces
      and do not depend on how a quotient is rounded.  The functions whose
      result is a quotient turned into an integer
      ([point_to_pixel_coordinates], [create_new_image_from_polygon]) are
      embedded a second time in module [Binary64], over binary64 floats
      with Python's [int], [np.floor] and division, and the properties
      about pixel counts and pixel indexes are stated there.
    - Pixel values are integers: a raster of an integer type whose values
      the Int32 output of [stack_images] holds.
    - Strings are sequences of characters below 256, among which the
      decimal digits of a regular expression's [\d] are [0] to [9].
    - [glob] is modelled for a directory name without the characters
      [*], [?] and [[], which [glob.glob] would read as a pattern.
    - A numpy array is a view (shape, strides, offset) over a buffer, so
      that writing through a slice and rebinding a name are different
      things, as they are in the source.
    - The OGR geometry library is an interface ([OGR]); the functions and
      most theorems are generic in it, and [BoxGeometry] is an
      implementation for axis-aligned footprints used to run the code. *)

From Stdlib Require Import ZArith QArith Qround List String Ascii Bool Lia Lqa.
From Stdlib Require Import Floats Sorted Permutation.
Import ListNotations.

Local Open Scope Z_scope.

(** ** Python runtime *)

Module Py.

(** The exception classes the modelled functions raise, by class name.
    [ForestSentinelException], [StackImagesException] and
    [CreateNewStacksException] are declared in core.py; the others are
    Python built-ins raised by indexing, attribute access on [None],
    numpy shape mismatches, float division and the conversion of a float
    that is not finite to an integer. *)
Inductive exn : Type :=
| ForestSentinelException (msg : string)
| StackImagesException (msg : string)
| CreateNewStacksException (msg : string)
| Exception (msg : string)
| IndexError
| AttributeError
| ValueError
| ZeroDivisionError
| OverflowError.

Inductive result (A : Type) : Type :=
| Ok (a : A)
| Raise (e : exn).

Arguments Ok {A} a.
Arguments Raise {A} e.

Definition bind {A B : Type} (c : result A) (k : A -> result B) : result B :=
  match c with
  | Ok a => k a
  | Raise e => Raise e
  end.

(** [for x in xs: acc = body(acc, x)], stopping at the first exception. *)
Fixpoint for_each {A S : Type} (body : S -> A -> result S) (xs : list A) (s : S)
  : result S :=
  match xs with
  | [] => Ok s
  | x :: xs' => bind (body s x) (for_each body xs')
  end.

(** Attribute access or method call on the value of an expression that may
    be [None]. *)
Definition not_None {A : Type} (o : option A) : result A :=
  match o with
  | Some a => Ok a
  | None => Raise AttributeError
  end.

(** [xs[0]]. *)
Definition first {A : Type} (xs : list A) : result A :=
  match xs with
  | x :: _ => Ok x
  | [] => Raise IndexError
  end.

(** [xs[i]] for a non-negative literal index. *)
Definition item {A : Type} (xs : list A) (i : nat) : result A :=
  match nth_error xs i with
  | Some x => Ok x
  | None => Raise IndexError
  end.

(** [a / b] in the exact layer; [Binary64.truediv] is the division of
    doubles. *)
Definition truediv (a b : Q) : result Q :=
  if Qeq_bool b 0 then Raise ZeroDivisionError else Ok (a / b)%Q.

(** [int(q)] on an exact value: truncation toward zero. *)
Definition int (q : Q) : Z := Z.quot (Qnum q) (Zpos (Qden q)).

(** [int(np.floor(q))] on an exact value. *)
Definition int_floor (q : Q) : Z := Qfloor q.

Definition is_exn {A : Type} (r : result A) : bool :=
  match r with
  | Ok _ => false
  | Raise _ => true
  end.

End Py.

Export Py.

Declare Scope py_scope.
Delimit Scope py_scope with py.
Notation "x <- c ;; k" := (bind c (fun x => k))
  (at level 61, c at next level, right associativity) : py_scope.
Notation "' pat <- c ;; k" := (bind c (fun x => match x with pat => k end))
  (at level 61, pat pattern, c at next level, right associativity) : py_scope.
Local Open Scope py_scope.

(** ** numpy arrays: views over buffers *)

Module Np.

Definition buffer := list Z.

Record ndarray : Type := mk_ndarray {
  shape : list nat;
  strides : list nat;
  offset : nat
}.

(** Strides of a C-contiguous array of the given shape. *)
Fixpoint c_strides (sh : list nat) : list nat :=
  match sh with
  | [] => []
  | _ :: sh' => fold_right Nat.mul 1%nat sh' :: c_strides sh'
  end.

Definition contiguous (sh : list nat) : ndarray :=
  mk_ndarray sh (c_strides sh) 0.

Definition size (sh : list nat) : nat := fold_right Nat.mul 1%nat sh.

(** Buffer positions of the elements of a view, in C order. *)
Fixpoint offsets (sh st : list nat) (base : nat) : list nat :=
  match sh, st with
  | n :: sh', s :: st' =>
      flat_map (fun i => offsets sh' st' (base + i * s)%nat) (seq 0 n)
  | _, _ => [base]
  end.

Definition positions (a : ndarray) : list nat :=
  offsets (shape a) (strides a) (offset a).

Definition read (buf : buffer) (a : ndarray) : list Z :=
  map (fun o => nth o buf 0) (positions a).

(** Python's [lo:hi] on an axis of length [n]: negative indices count from
    the end, both ends are clamped, an inverted range is empty. *)
Definition slice_index (n : nat) (i : Z) : Z :=
  if i <? 0 then Z.max (i + Z.of_nat n) 0 else Z.min i (Z.of_nat n).

Definition slice_bounds (n : nat) (lo hi : Z) : nat * nat :=
  let start := slice_index n lo in
  let stop := slice_index n hi in
  (Z.to_nat start, Z.to_nat (Z.max 0 (stop - start))).

Fixpoint slice_axes (sh st : list nat) (off : nat) (sl : list (Z * Z)) {struct sl}
  : result ndarray :=
  match sl with
  | [] => Ok (mk_ndarray sh st off)
  | (lo, hi) :: sl' =>
      match sh, st with
      | n :: sh', s :: st' =>
          let '(start, len) := slice_bounds n lo hi in
          a <- slice_axes sh' st' (off + start * s)%nat sl' ;;
          Ok (mk_ndarray (len :: shape a) (s :: strides a) (offset a))
      | _, _ => Raise IndexError
      end
  end.

(** [a[lo0:hi0, lo1:hi1, ...]]: a view on the same buffer; more slices than
    axes is an [IndexError]. *)
Definition getitem (a : ndarray) (sl : list (Z * Z)) : result ndarray :=
  slice_axes (shape a) (strides a) (offset a) sl.

(** [np.expand_dims(a, 0)]. *)
Definition expand_dims0 (a : ndarray) : ndarray :=
  mk_ndarray (1%nat :: shape a) (size (shape a) :: strides a) (offset a).

(** Broadcasting, on shapes and strides listed from the last axis. *)
Fixpoint broadcast_rev (sh st target : list nat) : option (list nat) :=
  match target with
  | [] => match sh with [] => Some [] | _ :: _ => None end
  | t :: target' =>
      match sh, st with
      | [], _ => option_map (cons 0%nat) (broadcast_rev [] [] target')
      | n :: sh', s :: st' =>
          if Nat.eqb n t then option_map (cons s) (broadcast_rev sh' st' target')
          else if Nat.eqb n 1 then option_map (cons 0%nat) (broadcast_rev sh' st' target')
          else None
      | _ :: _, [] => None
      end
  end.

Definition broadcast_to (a : ndarray) (target : list nat) : option ndarray :=
  option_map (fun st => mk_ndarray target (rev st) (offset a))
             (broadcast_rev (rev (shape a)) (rev (strides a)) (rev target)).

Fixpoint broadcast_shapes_rev (s1 s2 : list nat) : option (list nat) :=
  match s1, s2 with
  | [], _ => Some s2
  | _, [] => Some s1
  | n1 :: s1', n2 :: s2' =>
      if Nat.eqb n1 n2 then option_map (cons n1) (broadcast_shapes_rev s1' s2')
      else if Nat.eqb n1 1 then option_map (cons n2) (broadcast_shapes_rev s1' s2')
      else if Nat.eqb n2 1 then option_map (cons n1) (broadcast_shapes_rev s1' s2')
      else None
  end.

Definition broadcast_shapes (s1 s2 : list nat) : option (list nat) :=
  option_map (@rev nat) (broadcast_shapes_rev (rev s1) (rev s2)).

Fixpoint set_nth (o : nat) (x : Z) (buf : buffer) : buffer :=
  match buf, o with
  | [], _ => []
  | _ :: buf', O => x :: buf'
  | y :: buf', S o' => y :: set_nth o' x buf'
  end.

(** [np.copyto(dst, src)]: writes through the view [dst] into its buffer;
    [src] is broadcast to the shape of [dst]. *)
Definition copyto (dst_buf : buffer) (dst : ndarray) (src_buf : buffer) (src : ndarray)
  : result buffer :=
  match broadcast_to src (shape dst) with
  | None => Raise ValueError
  | Some src' =>
      Ok (fold_left (fun buf ox => set_nth (fst ox) (snd ox) buf)
                    (combine (positions dst) (read src_buf src'))
                    dst_buf)
  end.

(** A binary ufunc ([np.bitwise_or], [np.bitwise_and]): the result is a new
    array with a buffer of its own. *)
Definition ufunc2 (op : Z -> Z -> Z)
  (a_buf : buffer) (a : ndarray) (b_buf : buffer) (b : ndarray)
  : result (buffer * ndarray) :=
  match broadcast_shapes (shape a) (shape b) with
  | None => Raise ValueError
  | Some sh =>
      match broadcast_to a sh, broadcast_to b sh with
      | Some a', Some b' =>
          Ok (map (fun xy => op (fst xy) (snd xy))
                  (combine (read a_buf a') (read b_buf b')),
              contiguous sh)
      | _, _ => Raise ValueError
      end
  end.

Definition bitwise_or := ufunc2 Z.lor.
Definition bitwise_and := ufunc2 Z.land.

End Np.

(** ** Strings, paths and timestamps *)

Module Os.

Local Open Scope string_scope.

Fixpoint ends_with (suffix s : string) : bool :=
  if String.eqb suffix s then true
  else match s with
       | EmptyString => false
       | String _ s' => ends_with suffix s'
       end.

Definition starts_with (p s : string) : bool := String.prefix p s.

(** Text after the last ['/'] ([os.path.basename]) and text before it
    ([os.path.dirname], for paths without repeated or trailing slashes). *)
Fixpoint split_last_slash (s : string) : option string * string :=
  match s with
  | EmptyString => (None, EmptyString)
  | String c s' =>
      match split_last_slash s' with
      | (Some d, b) => (Some (String c d), b)
      | (None, b) =>
          if Ascii.eqb c "/"%char then (Some EmptyString, b)
          else (None, String c b)
      end
  end.

Definition basename (p : string) : string := snd (split_last_slash p).

Definition dirname (p : string) : string :=
  match fst (split_last_slash p) with
  | Some EmptyString => if starts_with "/" p then "/" else EmptyString
  | Some d => d
  | None => EmptyString
  end.

(** [os.path.join(a, b)]. *)
Definition join (a b : string) : string :=
  if starts_with "/" b then b
  else if String.eqb a EmptyString || ends_with "/" a then a ++ b
  else a ++ "/" ++ b.

(** [s.rsplit('.')[0]]: with no split limit, the text before the first dot. *)
Fixpoint before_first_dot (s : string) : string :=
  match s with
  | EmptyString => EmptyString
  | String c s' => if Ascii.eqb c "."%char then EmptyString else String c (before_first_dot s')
  end.

(** Names that [glob] matches against ["*.gtif"]: the suffix, and not a
    hidden file. *)
Definition matches_gtif (name : string) : bool :=
  ends_with ".gtif" name && negb (starts_with "." name).

End Os.

Module Timestamp.

(** [\d] on a character below 256: of these, only [0] to [9] are decimal
    digits. *)
Definition is_digit (c : ascii) : bool :=
  let n := nat_of_ascii c in (48 <=? n)%nat && (n <=? 57)%nat.

Definition digit_value (c : ascii) : Z := Z.of_nat (nat_of_ascii c) - 48.

(** The first [n] characters of [s] when they are all digits. *)
Fixpoint digits (n : nat) (s : string) : option (string * string) :=
  match n with
  | O => Some (EmptyString, s)
  | S n' =>
      match s with
      | String c s' =>
          if is_digit c then
            match digits n' s' with
            | Some (d, rest) => Some (String c d, rest)
            | None => None
            end
          else None
      | EmptyString => None
      end
  end.

(** A match of [\d{8}T\d{6}] at the start of [s]. *)
Definition match_here (s : string) : option string :=
  match digits 8 s with
  | Some (d1, String c rest) =>
      if Ascii.eqb c "T"%char then
        match digits 6 rest with
        | Some (d2, _) => Some (d1 ++ String c d2)%string
        | None => None
        end
      else None
  | _ => None
  end.

(** [re.search(r"\d{8}T\d{6}", s)]: the leftmost match. *)
Fixpoint re_search (s : string) : option string :=
  match match_here s with
  | Some m => Some m
  | None =>
      match s with
      | EmptyString => None
      | String _ s' => re_search s'
      end
  end.

Fixpoint number (acc : Z) (s : string) : Z :=
  match s with
  | EmptyString => acc
  | String c s' => number (10 * acc + digit_value c) s'
  end.

Definition field (s : string) (start len : nat) : Z :=
  number 0 (String.substring start len s).

Definition is_leap (y : Z) : bool :=
  ((y mod 4 =? 0) && negb (y mod 100 =? 0)) || (y mod 400 =? 0).

Definition days_in_month (y m : Z) : Z :=
  if m =? 2 then (if is_leap y then 29 else 28)
  else if (m =? 4) || (m =? 6) || (m =? 9) || (m =? 11) then 30
  else 31.

(** [datetime.strptime(ts, '%Y%m%dT%H%M%S')] on a string of the shape
    [re_search] returns.  Datetimes compare as the number
    YYYYMMDDhhmmss does, which is what the result holds. *)
Definition strptime (ts : string) : result Z :=
  let y := field ts 0 4 in
  let m := field ts 4 2 in
  let d := field ts 6 2 in
  let hh := field ts 9 2 in
  let mm := field ts 11 2 in
  let ss := field ts 13 2 in
  if (1 <=? y) && (1 <=? m) && (m <=? 12) && (1 <=? d) && (d <=? days_in_month y m)
     && (hh <=? 23) && (mm <=? 59) && (ss <=? 59)
  then Ok (((((y * 100 + m) * 100 + d) * 100 + hh) * 100 + mm) * 100 + ss)
  else Raise ValueError.

End Timestamp.

(** ** GDAL datasets and the file system *)

Record GeoTransform : Type := mk_gt {
  gt0 : Q;  (* x of the top-left corner *)
  gt1 : Q;  (* pixel width *)
  gt2 : Q;
  gt3 : Q;  (* y of the top-left corner *)
  gt4 : Q;
  gt5 : Q   (* pixel height, negative for north-up rasters *)
}.

Record Dataset : Type := mk_dataset {
  RasterCount : Z;
  RasterXSize : Z;
  RasterYSize : Z;
  GetGeoTransform : GeoTransform;
  GetProjection : string;
  pixels : Np.buffer   (* band, row, column order *)
}.

(** [dataset.GetVirtualMemArray()]: the pixels as an array over the
    dataset's own storage, two-dimensional for a single band. *)
Definition GetVirtualMemArray (d : Dataset) : Np.ndarray :=
  let h := Z.to_nat (RasterYSize d) in
  let w := Z.to_nat (RasterXSize d) in
  if RasterCount d =? 1 then Np.contiguous [h; w]
  else Np.contiguous [Z.to_nat (RasterCount d); h; w].

(** [driver.Create(path, xsize, ysize, bands, eType)] of the GTiff driver:
    a zero-filled raster with GDAL's default geotransform, or [None] when
    the driver rejects the request (a size or a band count below one). *)
Definition driver_Create (xsize ysize bands : Z) : option Dataset :=
  if (bands <? 1) || (xsize <? 1) || (ysize <? 1) then None
  else Some (mk_dataset bands xsize ysize
               (mk_gt 0 1 0 0 0 1) EmptyString
               (repeat 0 (Z.to_nat bands * Z.to_nat ysize * Z.to_nat xsize))).

(** What the functions see of the file system: [gdal.Open] and
    [os.listdir]. *)
Record World : Type := mk_world {
  gdal_Open : string -> option Dataset;
  os_listdir : string -> list string
}.

(** [glob.glob(os.path.join(d, "*.gtif"))], for a directory name [d] that
    holds none of [*], [?] and [[]. *)
Definition glob_gtif (w : World) (d : string) : list string :=
  map (Os.join d) (filter Os.matches_gtif (os_listdir w d)).

(** The file system after a dataset has been flushed to [path]. *)
Definition write_dataset (w : World) (path : string) (d : Dataset) : World :=
  mk_world
    (fun p => if String.eqb p path then Some d else gdal_Open w p)
    (fun dir =>
       if String.eqb dir (Os.dirname path)
          && negb (existsb (String.eqb (Os.basename path)) (os_listdir w dir))
       then os_listdir w dir ++ [Os.basename path]
       else os_listdir w dir).

(** ** The OGR geometry library *)

Class OGR : Type := {
  Geometry : Type;
  (** a [wkbPolygon] holding one [wkbLinearRing] with the given points *)
  polygon_of_ring : list (Q * Q) -> Geometry;
  Intersection : Geometry -> Geometry -> Geometry;
  Union : Geometry -> Geometry -> Geometry;
  Difference : Geometry -> Geometry -> Geometry;
  Simplify : Geometry -> Q -> Geometry;
  Boundary : Geometry -> Geometry;
  (** [(min_x, max_x, min_y, max_y)] *)
  GetEnvelope : Geometry -> Q * Q * Q * Q;
  GetArea : Geometry -> Q;
  (** the truth value of a geometry object in an [if] *)
  truth : Geometry -> bool;
  CreateGeometryFromWkt : string -> option Geometry;
  GetX : Geometry -> Q;
  GetY : Geometry -> Q
}.

(** ** core.py *)

Section Core.

Context {ogr : OGR}.

Local Open Scope Q_scope.

(** The three kinds of value [point_to_pixel_coordinates] accepts for
    [point]: a WKT string, a list or tuple, an [ogr.Geometry]. *)
Inductive point_arg : Type :=
| PointStr (wkt : string)
| PointSeq (coords : list Q)
| PointGeom (g : Geometry).

Definition get_raster_bounds (raster : Dataset) : Geometry :=
  let geotrans := GetGeoTransform raster in
  let top_left_x := gt0 geotrans in
  let top_left_y := gt3 geotrans in
  let width := gt1 geotrans * inject_Z (RasterXSize raster) in
  let height := gt5 geotrans * inject_Z (RasterYSize raster) * inject_Z (-1) in
  polygon_of_ring
    [ (top_left_x, top_left_y);
      (top_left_x + width, top_left_y);
      (top_left_x + width, top_left_y - height);
      (top_left_x, top_left_y - height);
      (top_left_x, top_left_y) ].

Definition get_poly_intersection (poly1 poly2 : Geometry) : Geometry :=
  Intersection poly1 poly2.

(** A WKT string is first replaced by the geometry it denotes, which the
    last of the three [isinstance] tests then reads again; [oob_fail] is
    bound and not used. *)
Definition point_to_pixel_coordinates
  (raster : Dataset) (point : point_arg) (oob_fail : bool) : result (Z * Z) :=
  '(x_geo, y_geo) <-
    match point with
    | PointStr wkt =>
        g <- not_None (CreateGeometryFromWkt wkt) ;;
        Ok (GetX g, GetY g)
    | PointSeq coords =>
        x <- item coords 0 ;;
        y <- item coords 1 ;;
        Ok (x, y)
    | PointGeom g => Ok (GetX g, GetY g)
    end ;;
  let gt := GetGeoTransform raster in
  qx <- truediv (x_geo - gt0 gt) (gt1 gt) ;;
  let x_pixel := int_floor qx in
  qy <- truediv (y_geo - gt3 gt) (gt5 gt) ;;
  let y_pixel := int_floor qy in
  Ok (x_pixel, y_pixel).

Definition pixel_bounds_from_polygon (raster : Dataset) (polygon : Geometry)
  : result (Z * Z * Z * Z) :=
  let raster_bounds := get_raster_bounds raster in
  let intersection := get_poly_intersection raster_bounds polygon in
  let bounds_geo := Boundary intersection in
  let '(x_min_geo, x_max_geo, y_min_geo, y_max_geo) := GetEnvelope bounds_geo in
  '(x_min_pixel, y_min_pixel) <-
    point_to_pixel_coordinates raster (PointSeq [x_min_geo; y_min_geo]) false ;;
  '(x_max_pixel, y_max_pixel) <-
    point_to_pixel_coordinates raster (PointSeq [x_max_geo; y_max_geo]) false ;;
  let '(x_min_pixel, x_max_pixel) :=
    if (x_min_pixel >=? x_max_pixel)%Z then (x_max_pixel, x_min_pixel)
    else (x_min_pixel, x_max_pixel) in
  let '(y_min_pixel, y_max_pixel) :=
    if (y_min_pixel >=? y_max_pixel)%Z then (y_max_pixel, y_min_pixel)
    else (y_min_pixel, y_max_pixel) in
  Ok (x_min_pixel, x_max_pixel, y_min_pixel, y_max_pixel).

Definition multiple_union (polygons : list Geometry) : result Geometry :=
  running_union <- first polygons ;;
  let running_union := fold_left Union (tl polygons) running_union in
  Ok (Simplify running_union 0).

Definition multiple_intersection (polygons : list Geometry) : result Geometry :=
  running_intersection <- first polygons ;;
  let running_intersection := fold_left Intersection (tl polygons) running_intersection in
  Ok (Simplify running_intersection 0).

Definition get_combined_polygon (rasters : list Dataset) (geometry_mode : string)
  : result Geometry :=
  let raster_bounds := map get_raster_bounds rasters in
  if String.eqb geometry_mode "intersect" then multiple_intersection raster_bounds
  else if String.eqb geometry_mode "union" then multiple_union raster_bounds
  else Raise (Exception "Invalid geometry mode").

(** The created raster is what [out_path] holds once the caller lets go of
    it.  [driver.Create] answers [None] to a request it rejects, and the
    call of [SetGeoTransform] on that raises. *)
Definition create_new_image_from_polygon
  (polygon : Geometry) (out_path : string) (x_res y_res : Q) (bands : Z)
  (projection : string) : result Dataset :=
  let '(bounds_x_min, bounds_x_max, bounds_y_min, bounds_y_max) := GetEnvelope polygon in
  qw <- truediv (bounds_x_max - bounds_x_min) x_res ;;
  let final_width_pixels := int qw in
  qh <- truediv (bounds_y_max - bounds_y_min) y_res ;;
  let final_height_pixels := int qh in
  out_raster <- not_None (driver_Create final_width_pixels final_height_pixels bands) ;;
  Ok (mk_dataset (RasterCount out_raster) (RasterXSize out_raster) (RasterYSize out_raster)
        (mk_gt bounds_x_min x_res 0 bounds_y_max 0 (y_res * inject_Z (-1)))
        projection
        (pixels out_raster)).

(** [[gdal.Open(p) for p in paths]], then the first use of an attribute of
    each element. *)
Fixpoint open_all (w : World) (paths : list string) : result (list Dataset) :=
  match paths with
  | [] => Ok []
  | p :: paths' =>
      d <- not_None (gdal_Open w p) ;;
      ds <- open_all w paths' ;;
      Ok (d :: ds)
  end.

Definition sum_Z (l : list Z) : Z := fold_right Z.add 0%Z l.

(** One turn of the copying loop of [stack_images]: the state is the
    storage of the output raster and [present_layer]. *)
Definition stack_images_body (out_raster : Dataset) (combined_polygons : Geometry)
  (state : Np.buffer * Z) (in_raster : Dataset) : result (Np.buffer * Z) :=
  let '(out_buffer, present_layer) := state in
  let out_raster_array := GetVirtualMemArray out_raster in
  let in_raster_array := GetVirtualMemArray in_raster in
  '(out_x_min, out_x_max, out_y_min, out_y_max) <-
    pixel_bounds_from_polygon out_raster combined_polygons ;;
  '(in_x_min, in_x_max, in_y_min, in_y_max) <-
    pixel_bounds_from_polygon in_raster combined_polygons ;;
  let in_raster_array :=
    if Nat.eqb (List.length (Np.shape in_raster_array)) 2
    then Np.expand_dims0 in_raster_array else in_raster_array in
  out_raster_view <-
    Np.getitem out_raster_array
      [ (present_layer, present_layer + RasterCount in_raster)%Z;
        (out_y_min, out_y_max);
        (out_x_min, out_x_max) ] ;;
  in_raster_view <-
    Np.getitem in_raster_array
      [ (0%Z, RasterCount in_raster);
        (in_y_min, in_y_max);
        (in_x_min, in_x_max) ] ;;
  out_buffer <- Np.copyto out_buffer out_raster_view (pixels in_raster) in_raster_view ;;
  Ok (out_buffer, (present_layer + RasterCount in_raster)%Z).

Definition with_pixels (d : Dataset) (buf : Np.buffer) : Dataset :=
  mk_dataset (RasterCount d) (RasterXSize d) (RasterYSize d)
             (GetGeoTransform d) (GetProjection d) buf.

Definition stack_images (w : World) (raster_paths : list string)
  (out_raster_path : string) (geometry_mode : string) : result World :=
  if (Z.of_nat (List.length raster_paths) <=? 1)%Z then
    Raise (StackImagesException "stack_images requires at least two input images")
  else
    rasters <- open_all w raster_paths ;;
    let total_layers := sum_Z (map RasterCount rasters) in
    r0 <- first rasters ;;
    let projection := GetProjection r0 in
    let in_gt := GetGeoTransform r0 in
    let x_res := gt1 in_gt in
    let y_res := gt5 in_gt * inject_Z (-1) in
    combined_polygons <- get_combined_polygon rasters geometry_mode ;;
    out_raster <- create_new_image_from_polygon combined_polygons out_raster_path
                    x_res y_res total_layers projection ;;
    '(out_buffer, _) <-
      for_each (stack_images_body out_raster combined_polygons) rasters
               (pixels out_raster, 0%Z) ;;
    Ok (write_dataset w out_raster_path (with_pixels out_raster out_buffer)).

(** One turn of the loop of [combine_masks].  The state is the storage of
    the output mask.  [np.bitwise_or] and [np.bitwise_and] build a new
    array and the assignment binds the name [out_mask_view] to it; the
    name is then set to [None].  The test [combination_func is 'or']
    compares identities, which for the interned literals that callers pass
    is equality of the strings. *)
Definition combine_masks_body (combination_func : string)
  (out_mask : Dataset) (combined_polygon : Geometry)
  (out_buffer : Np.buffer) (in_mask : Dataset) : result Np.buffer :=
  let out_mask_array := GetVirtualMemArray out_mask in
  let in_mask_array := GetVirtualMemArray in_mask in
  '(out_x_min, out_x_max, out_y_min, out_y_max) <-
    pixel_bounds_from_polygon out_mask combined_polygon ;;
  '(in_x_min, in_x_max, in_y_min, in_y_max) <-
    pixel_bounds_from_polygon in_mask combined_polygon ;;
  out_mask_view <-
    Np.getitem out_mask_array [ (out_y_min, out_y_max); (out_x_min, out_x_max) ] ;;
  in_mask_view <-
    Np.getitem in_mask_array [ (in_y_min, in_y_max); (in_x_min, in_x_max) ] ;;
  out_mask_view <-
    (if String.eqb combination_func "or" then
       Np.bitwise_or out_buffer out_mask_view (pixels in_mask) in_mask_view
     else if String.eqb combination_func "and" then
       Np.bitwise_and out_buffer out_mask_view (pixels in_mask) in_mask_view
     else
       Raise (Exception "Invalid combination_func; valid values are 'or' or 'and'")) ;;
  let out_mask_view := tt in
  Ok out_buffer.

Definition combine_masks (w : World) (mask_paths : list string) (out_path : string)
  (combination_func : string) (geometry_func : string) : result (string * World) :=
  masks <- open_all w mask_paths ;;
  combined_polygon <- get_combined_polygon masks geometry_func ;;
  m0 <- first masks ;;
  let gt := GetGeoTransform m0 in
  let x_res := gt1 gt in
  let y_res := gt5 gt * inject_Z (-1) in
  let bands := 1%Z in
  let projection := GetProjection m0 in
  out_mask <- create_new_image_from_polygon combined_polygon out_path x_res y_res
                bands projection ;;
  out_buffer <-
    for_each (combine_masks_body combination_func out_mask combined_polygon) masks
             (pixels out_mask) ;;
  Ok (out_path, write_dataset w out_path (with_pixels out_mask out_buffer)).

Definition get_sen_2_image_timestamp (image_name : string) : result string :=
  not_None (Timestamp.re_search image_name).

Definition get_image_acquisition_time (image_name : string) : result Z :=
  ts <- get_sen_2_image_timestamp image_name ;;
  Timestamp.strptime ts.

Fixpoint keyed (strings : list string) : result (list (Z * string)) :=
  match strings with
  | [] => Ok []
  | s :: strings' =>
      k <- get_image_acquisition_time s ;;
      ks <- keyed strings' ;;
      Ok ((k, s) :: ks)
  end.

Fixpoint insert_desc (x : Z * string) (l : list (Z * string)) : list (Z * string) :=
  match l with
  | [] => [x]
  | y :: l' => if (fst x <=? fst y)%Z then y :: insert_desc x l' else x :: l
  end.

(** [strings.sort(key=get_image_acquisition_time, reverse=True)]: the keys
    are computed first; the sort is stable. *)
Definition sort_by_timestamp (strings : list string) : result (list string) :=
  ks <- keyed strings ;;
  Ok (map snd (fold_left (fun acc x => insert_desc x acc) ks [])).

Definition get_mask_path (image_path : string) : string :=
  let image_name := Os.basename image_path in
  let image_dir := Os.dirname image_path in
  let mask_name := (Os.before_first_dot image_name ++ ".msk")%string in
  Os.join image_dir mask_name.

Definition stack_old_and_new_images (w : World) (old_image_path new_image_path : string)
  (out_dir : string) (create_combined_mask : bool) : result (string * World) :=
  old_timestamp <- get_sen_2_image_timestamp (Os.basename old_image_path) ;;
  new_timestamp <- get_sen_2_image_timestamp (Os.basename new_image_path) ;;
  let out_path := Os.join out_dir (old_timestamp ++ "_" ++ new_timestamp)%string in
  w <- stack_images w [old_image_path; new_image_path] (out_path ++ ".tif")%string
         "intersect" ;;
  w <- (if create_combined_mask then
          let out_mask_path := (out_path ++ ".msk")%string in
          let old_mask_path := get_mask_path old_image_path in
          let new_mask_path := get_mask_path new_image_path in
          '(_, w) <- combine_masks w [old_mask_path; new_mask_path] out_mask_path
                       "or" "intersect" ;;
          Ok w
        else Ok w) ;;
  Ok ((out_path ++ ".tif")%string, w).

(** The first loop of [create_new_stacks], over [safe_files[1:]]. *)
Fixpoint select_images (w : World) (threshold : Q) (files : list string)
  (new_data_poly : Geometry) (to_be_stacked : list string) : result (list string) :=
  match files with
  | [] => Ok to_be_stacked
  | file :: files' =>
      image <- not_None (gdal_Open w file) ;;
      let image_poly := get_raster_bounds image in
      if truth (Intersection image_poly new_data_poly) then
        let to_be_stacked := to_be_stacked ++ [file] in
        let new_data_poly := Difference new_data_poly image_poly in
        if negb (Qle_bool threshold (GetArea new_data_poly)) then Ok to_be_stacked
        else select_images w threshold files' new_data_poly to_be_stacked
      else select_images w threshold files' new_data_poly to_be_stacked
  end.

(** The second loop of [create_new_stacks], over [to_be_stacked]. *)
Fixpoint stack_selected (w : World) (latest_image_path stack_dir : string)
  (to_be_stacked : list string) (new_images : list string)
  : result (list string * World) :=
  match to_be_stacked with
  | [] => Ok (new_images, w)
  | image :: rest =>
      if existsb (String.eqb image) (os_listdir w stack_dir) then Ok (new_images, w)
      else
        '(new_image, w) <- stack_old_and_new_images w image latest_image_path stack_dir true ;;
        stack_selected w latest_image_path stack_dir rest (new_images ++ [new_image])
  end.

Definition create_new_stacks (w : World) (image_dir stack_dir : string) (threshold : Q)
  : result (list string * World) :=
  let safe_files := glob_gtif w image_dir in
  if Nat.eqb (List.length safe_files) 0 then
    Raise (CreateNewStacksException "image_dir is empty")
  else
    safe_files <- sort_by_timestamp safe_files ;;
    latest_image_path <- first safe_files ;;
    latest_image <- not_None (gdal_Open w latest_image_path) ;;
    let new_data_poly := get_raster_bounds latest_image in
    to_be_stacked <- select_images w threshold (tl safe_files) new_data_poly [] ;;
    stack_selected w latest_image_path stack_dir to_be_stacked [].

End Core.

(** ** An implementation of the geometry interface

    Footprints as finite unions of closed axis-aligned boxes with disjoint
    interiors, which is what the rectangles of [get_raster_bounds] and
    their intersections, unions and differences are.  A point is a box of
    no extent.  The envelope of the empty geometry is all zero, as OGR
    reports it. *)

Module Box.

Local Open Scope Q_scope.

Record box : Type := mk_box { x0 : Q; x1 : Q; y0 : Q; y1 : Q }.

Definition qmin (a b : Q) : Q := if Qle_bool a b then a else b.
Definition qmax (a b : Q) : Q := if Qle_bool a b then b else a.
Definition qlt (a b : Q) : bool := negb (Qle_bool b a).

Definition of_points (pts : list (Q * Q)) : list box :=
  match pts with
  | [] => []
  | (x, y) :: pts' =>
      [ fold_left (fun b p => mk_box (qmin (x0 b) (fst p)) (qmax (x1 b) (fst p))
                                     (qmin (y0 b) (snd p)) (qmax (y1 b) (snd p)))
                  pts' (mk_box x x y y) ]
  end.

Definition inter1 (a b : box) : list box :=
  let c := mk_box (qmax (x0 a) (x0 b)) (qmin (x1 a) (x1 b))
                  (qmax (y0 a) (y0 b)) (qmin (y1 a) (y1 b)) in
  if Qle_bool (x0 c) (x1 c) && Qle_bool (y0 c) (y1 c) then [c] else [].

Definition inter (g h : list box) : list box :=
  flat_map (fun a => flat_map (inter1 a) h) g.

(** [a] without the interior of [b]: up to four boxes. *)
Definition minus1 (a b : box) : list box :=
  let cx0 := qmax (x0 a) (x0 b) in
  let cx1 := qmin (x1 a) (x1 b) in
  let cy0 := qmax (y0 a) (y0 b) in
  let cy1 := qmin (y1 a) (y1 b) in
  if qlt cx0 cx1 && qlt cy0 cy1 then
    (if qlt (x0 a) cx0 then [mk_box (x0 a) cx0 (y0 a) (y1 a)] else [])
    ++ (if qlt cx1 (x1 a) then [mk_box cx1 (x1 a) (y0 a) (y1 a)] else [])
    ++ (if qlt (y0 a) cy0 then [mk_box cx0 cx1 (y0 a) cy0] else [])
    ++ (if qlt cy1 (y1 a) then [mk_box cx0 cx1 cy1 (y1 a)] else [])
  else [a].

Definition minus (g h : list box) : list box :=
  fold_left (fun acc b => flat_map (fun a => minus1 a b) acc) h g.

Definition union (g h : list box) : list box := g ++ minus h g.

Definition is_point (b : box) : bool :=
  Qeq_bool (x0 b) (x1 b) && Qeq_bool (y0 b) (y1 b).

Definition boundary (g : list box) : list box :=
  filter (fun b => negb (is_point b)) g.

Definition envelope (g : list box) : Q * Q * Q * Q :=
  match g with
  | [] => (0, 0, 0, 0)
  | b :: g' =>
      let e := fold_left (fun e c => mk_box (qmin (x0 e) (x0 c)) (qmax (x1 e) (x1 c))
                                            (qmin (y0 e) (y0 c)) (qmax (y1 e) (y1 c)))
                         g' b in
      (x0 e, x1 e, y0 e, y1 e)
  end.

Definition area (g : list box) : Q :=
  fold_right (fun b acc => (x1 b - x0 b) * (y1 b - y0 b) + acc) 0 g.

(** WKT of points with integer coordinates: [POINT (x y)]. *)
Fixpoint parse_nat (s : string) (acc : Z) (seen : bool) : option (Z * string) :=
  match s with
  | String c s' =>
      if Timestamp.is_digit c
      then parse_nat s' (10 * acc + Timestamp.digit_value c)%Z true
      else if seen then Some (acc, s) else None
  | EmptyString => if seen then Some (acc, s) else None
  end.

Definition parse_int (s : string) : option (Z * string) :=
  match s with
  | String "-"%char s' =>
      match parse_nat s' 0%Z false with
      | Some (n, rest) => Some ((- n)%Z, rest)
      | None => None
      end
  | _ => parse_nat s 0%Z false
  end.

Definition of_wkt (s : string) : option (list box) :=
  if String.prefix "POINT (" s then
    match parse_int (String.substring 7 (String.length s - 7) s) with
    | Some (x, String " "%char rest) =>
        match parse_int rest with
        | Some (y, ")"%string) =>
            Some [mk_box (inject_Z x) (inject_Z x) (inject_Z y) (inject_Z y)]
        | _ => None
        end
    | _ => None
    end
  else None.

Definition get_x (g : list box) : Q :=
  match g with b :: _ => x0 b | [] => 0 end.

Definition get_y (g : list box) : Q :=
  match g with b :: _ => y0 b | [] => 0 end.

End Box.

#[export] Instance BoxGeometry : OGR := {
  Geometry := list Box.box;
  polygon_of_ring := Box.of_points;
  Intersection := Box.inter;
  Union := Box.union;
  Difference := Box.minus;
  Simplify := fun g _ => g;
  Boundary := Box.boundary;
  GetEnvelope := Box.envelope;
  GetArea := Box.area;
  truth := fun _ => true;
  CreateGeometryFromWkt := Box.of_wkt;
  GetX := Box.get_x;
  GetY := Box.get_y
}.

(** ** Sample rasters *)

Module Sample.

Local Open Scope string_scope.

(** A north-up 3 by 1 single-band raster at the origin with unit pixels. *)
Definition mask (a b c : Z) : Dataset :=
  mk_dataset 1 3 1 (mk_gt 0 1 0 1 0 (-1)) "EPSG:4326" [a; b; c].

Definition mask_world : World :=
  mk_world
    (fun p => if String.eqb p "m1.msk" then Some (mask 1 1 0)
              else if String.eqb p "m2.msk" then Some (mask 1 0 0)
              else if String.eqb p "m3.msk" then Some (mask 0 1 0)
              else None)
    (fun _ => []).

(** North-up 2 by 2 rasters with unit pixels: [one_band] and [two_bands]
    share a footprint, [far_away] lies ten units to the east. *)
Definition one_band : Dataset :=
  mk_dataset 1 2 2 (mk_gt 0 1 0 2 0 (-1)) "EPSG:4326" [1; 2; 3; 4].

Definition two_bands : Dataset :=
  mk_dataset 2 2 2 (mk_gt 0 1 0 2 0 (-1)) "EPSG:4326" [5; 6; 7; 8; 9; 10; 11; 12].

Definition far_away : Dataset :=
  mk_dataset 1 2 2 (mk_gt 10 1 0 2 0 (-1)) "EPSG:4326" [1; 2; 3; 4].

Definition stack_world : World :=
  mk_world
    (fun p => if String.eqb p "a.tif" then Some one_band
              else if String.eqb p "b.tif" then Some two_bands
              else if String.eqb p "c.tif" then Some far_away
              else None)
    (fun _ => []).

Definition stacked : Dataset :=
  mk_dataset 3 2 2 (mk_gt 0 1 0 2 0 (-1)) "EPSG:4326"
             [1; 2; 3; 4; 5; 6; 7; 8; 9; 10; 11; 12].

(** An image directory that holds the newest image and nothing older. *)
Definition single_image_world : World :=
  mk_world
    (fun p => if String.eqb p "images/S2A_20180101T101010.gtif" then Some one_band
              else None)
    (fun d => if String.eqb d "images" then ["S2A_20180101T101010.gtif"] else []).

End Sample.

(** ** Notions used to state the properties *)

Section Notions.

Context {ogr : OGR}.

Local Open Scope Q_scope.

(** The error conditions of the specification that core.py has an
    exception class for. *)
Inductive condition : Type :=
| GeometryError
| NoOverlap
| DimensionMismatch
| EmptyInputSet
| DuplicateWork.

Definition condition_of (e : exn) : option condition :=
  match e with
  | StackImagesException _ => Some DimensionMismatch
  | CreateNewStacksException _ => Some EmptyInputSet
  | _ => None
  end.

Definition signals {A : Type} (r : result A) (c : condition) : Prop :=
  exists e, r = Raise e /\ condition_of e = Some c.

(** [raises_only P r]: if [r] is an exception, it is one of [P]. *)
Definition raises_only {A : Type} (P : exn -> bool) (r : result A) : Prop :=
  match r with
  | Ok _ => True
  | Raise e => P e = true
  end.

(** The built-in exceptions, as opposed to the classes core.py declares. *)
Definition builtin (e : exn) : bool :=
  match e with
  | Exception _ | IndexError | AttributeError | ValueError | ZeroDivisionError
  | OverflowError => true
  | ForestSentinelException _ | StackImagesException _ | CreateNewStacksException _ => false
  end.

Definition not_CreateNewStacksException (e : exn) : bool :=
  match e with
  | CreateNewStacksException _ => false
  | _ => true
  end.

End Notions.

(** ** Arithmetic of the conversions *)

Section Arithmetic.

Local Open Scope Q_scope.

Lemma truediv_nonzero (a b : Q) : ~ b == 0 -> truediv a b = Ok (a / b).
Proof.
  intros Hb. unfold truediv.
  destruct (Qeq_bool b 0) eqn:E; [ | reflexivity ].
  apply Qeq_bool_iff in E. contradiction.
Qed.

Lemma truediv_zero (a b : Q) : b == 0 -> truediv a b = Raise ZeroDivisionError.
Proof.
  intros Hb. unfold truediv.
  apply Qeq_bool_iff in Hb. now rewrite Hb.
Qed.

(** [int] truncates: on a non-negative quotient it is the floor. *)
Lemma int_floor_nonneg (q : Q) : 0 <= q -> Py.int q = Qfloor q.
Proof.
  destruct q as [n d]. unfold Qle, Py.int, Qfloor. simpl. intros Hn.
  apply Z.quot_div_nonneg; lia.
Qed.

End Arithmetic.

(** ** Coordinate conversion and pixel windows *)

Section Conversion.

Context {ogr : OGR}.

Local Open Scope Q_scope.

Lemma point_to_pixel_coordinates_seq (raster : Dataset) (x y : Q) (rest : list Q)
  (oob_fail : bool) :
  ~ gt1 (GetGeoTransform raster) == 0 ->
  ~ gt5 (GetGeoTransform raster) == 0 ->
  point_to_pixel_coordinates raster (PointSeq (x :: y :: rest)) oob_fail
  = Ok (Qfloor ((x - gt0 (GetGeoTransform raster)) / gt1 (GetGeoTransform raster)),
        Qfloor ((y - gt3 (GetGeoTransform raster)) / gt5 (GetGeoTransform raster))).
Proof.
  intros H1 H5. unfold point_to_pixel_coordinates. simpl.
  rewrite (truediv_nonzero _ _ H1). simpl.
  rewrite (truediv_nonzero _ _ H5). reflexivity.
Qed.

(** A zero pixel width is a division by zero. *)
Lemma point_to_pixel_coordinates_zero_width (raster : Dataset) (x y : Q) (oob_fail : bool) :
  gt1 (GetGeoTransform raster) == 0 ->
  point_to_pixel_coordinates raster (PointSeq [x; y]) oob_fail = Raise ZeroDivisionError.
Proof.
  intros H1. unfold point_to_pixel_coordinates. simpl.
  rewrite (truediv_zero _ _ H1). reflexivity.
Qed.

Lemma pixel_bounds_from_polygon_sorted (raster : Dataset) (polygon : Geometry)
  (x_min x_max y_min y_max : Z) :
  pixel_bounds_from_polygon raster polygon = Ok (x_min, x_max, y_min, y_max) ->
  (x_min <= x_max)%Z /\ (y_min <= y_max)%Z.
Proof.
  unfold pixel_bounds_from_polygon.
  destruct (GetEnvelope _) as [[[xa xb] ya] yb].
  destruct (point_to_pixel_coordinates raster (PointSeq [xa; ya]) false)
    as [[c1 r1] | e]; simpl; [ | discriminate ].
  destruct (point_to_pixel_coordinates raster (PointSeq [xb; yb]) false)
    as [[c2 r2] | e]; simpl; [ | discriminate ].
  destruct (Z.geb_spec c1 c2), (Z.geb_spec r1 r2);
    intros Heq; injection Heq as <- <- <- <-; lia.
Qed.

(** C7. A window returned by [pixel_bounds_from_polygon] always has
    x_min <= x_max and y_min <= y_max: the two converted corners are
    swapped when they come out the other way round, so the window is the
    smaller and the larger of each pair; with non-zero pixel sizes a
    window is returned for every raster and polygon. *)
Theorem pixel_bounds_from_polygon_normalized (raster : Dataset) (polygon : Geometry) :
  (forall x_min x_max y_min y_max : Z,
      pixel_bounds_from_polygon raster polygon = Ok (x_min, x_max, y_min, y_max) ->
      (x_min <= x_max)%Z /\ (y_min <= y_max)%Z)
  /\ (~ gt1 (GetGeoTransform raster) == 0 ->
      ~ gt5 (GetGeoTransform raster) == 0 ->
      exists c1 r1 c2 r2 : Z,
        let '(x_min_geo, x_max_geo, y_min_geo, y_max_geo) :=
          GetEnvelope (Boundary (Intersection (get_raster_bounds raster) polygon)) in
        point_to_pixel_coordinates raster (PointSeq [x_min_geo; y_min_geo]) false
          = Ok (c1, r1)
        /\ point_to_pixel_coordinates raster (PointSeq [x_max_geo; y_max_geo]) false
          = Ok (c2, r2)
        /\ pixel_bounds_from_polygon raster polygon
          = Ok (Z.min c1 c2, Z.max c1 c2, Z.min r1 r2, Z.max r1 r2)).
Proof.
  split.
  - intros x_min x_max y_min y_max. apply pixel_bounds_from_polygon_sorted.
  - intros H1 H5. unfold pixel_bounds_from_polygon, get_poly_intersection.
    destruct (GetEnvelope _) as [[[xa xb] ya] yb].
    rewrite !(point_to_pixel_coordinates_seq raster _ _ [] false H1 H5).
    generalize (Qfloor ((xa - gt0 (GetGeoTransform raster)) / gt1 (GetGeoTransform raster))),
               (Qfloor ((xb - gt0 (GetGeoTransform raster)) / gt1 (GetGeoTransform raster))),
               (Qfloor ((ya - gt3 (GetGeoTransform raster)) / gt5 (GetGeoTransform raster))),
               (Qfloor ((yb - gt3 (GetGeoTransform raster)) / gt5 (GetGeoTransform raster))).
    intros c1 c2 r1 r2. exists c1, r1, c2, r2.
    split; [ reflexivity | split; [ reflexivity | ] ].
    cbn [bind].
    destruct (Z.geb_spec c1 c2), (Z.geb_spec r1 r2);
      repeat f_equal; lia.
Qed.

End Conversion.

(** ** Which exceptions a call can end in *)

Section Raising.

Context {ogr : OGR}.

Lemma raises_only_weaken {A : Type} (P Q : exn -> bool) (r : result A) :
  (forall e, P e = true -> Q e = true) -> raises_only P r -> raises_only Q r.
Proof. destruct r; simpl; auto. Qed.

Lemma raises_only_bind {A B : Type} (P : exn -> bool) (c : result A) (k : A -> result B) :
  raises_only P c -> (forall a, raises_only P (k a)) -> raises_only P (bind c k).
Proof. destruct c; simpl; auto. Qed.

Lemma raises_only_for_each {A S : Type} (P : exn -> bool)
  (body : S -> A -> result S) (xs : list A) :
  (forall s x, raises_only P (body s x)) ->
  forall s, raises_only P (for_each body xs s).
Proof.
  intros Hbody. induction xs as [ | x xs IH]; intros s; simpl; [ exact I | ].
  apply raises_only_bind; auto.
Qed.

Lemma raises_only_not_None {A : Type} (o : option A) : raises_only builtin (not_None o).
Proof. destruct o; simpl; auto. Qed.

Lemma raises_only_first {A : Type} (xs : list A) : raises_only builtin (first xs).
Proof. destruct xs; simpl; auto. Qed.

Lemma raises_only_item {A : Type} (xs : list A) (i : nat) : raises_only builtin (item xs i).
Proof. unfold item. destruct (nth_error xs i); simpl; auto. Qed.

Lemma raises_only_truediv (a b : Q) : raises_only builtin (truediv a b).
Proof. unfold truediv. destruct (Qeq_bool b 0); simpl; auto. Qed.

Lemma raises_only_slice_axes (sl : list (Z * Z)) :
  forall sh st off, raises_only builtin (Np.slice_axes sh st off sl).
Proof.
  induction sl as [ | [lo hi] sl IH]; intros sh st off; simpl; [ exact I | ].
  destruct sh as [ | n sh]; [ reflexivity | ].
  destruct st as [ | s st]; [ reflexivity | ].
  destruct (Np.slice_bounds n lo hi) as [start len].
  apply raises_only_bind; [ apply IH | intros a; exact I ].
Qed.

Lemma raises_only_getitem (a : Np.ndarray) (sl : list (Z * Z)) :
  raises_only builtin (Np.getitem a sl).
Proof. apply raises_only_slice_axes. Qed.

Lemma raises_only_copyto (dst_buf : Np.buffer) (dst : Np.ndarray)
  (src_buf : Np.buffer) (src : Np.ndarray) :
  raises_only builtin (Np.copyto dst_buf dst src_buf src).
Proof. unfold Np.copyto. destruct (Np.broadcast_to src (Np.shape dst)); simpl; auto. Qed.

Lemma raises_only_ufunc2 (op : Z -> Z -> Z) (a_buf : Np.buffer) (a : Np.ndarray)
  (b_buf : Np.buffer) (b : Np.ndarray) :
  raises_only builtin (Np.ufunc2 op a_buf a b_buf b).
Proof.
  unfold Np.ufunc2.
  destruct (Np.broadcast_shapes (Np.shape a) (Np.shape b)) as [sh | ]; [ | reflexivity ].
  destruct (Np.broadcast_to a sh); [ | reflexivity ].
  destruct (Np.broadcast_to b sh); simpl; auto.
Qed.

Ltac raises_step :=
  first
    [ exact I
    | reflexivity
    | apply raises_only_not_None
    | apply raises_only_first
    | apply raises_only_item
    | apply raises_only_truediv
    | apply raises_only_getitem
    | apply raises_only_copyto
    | apply raises_only_ufunc2
    | assumption
    | apply raises_only_bind; [ | intros ]
    | match goal with
      | |- raises_only _ (match ?x with (_, _) => _ end) => destruct x
      | |- raises_only _ (let '(_, _) := ?x in _) => destruct x
      | |- raises_only _ (if ?b then _ else _) => destruct b
      end ].

Ltac raises := repeat raises_step.

Lemma raises_only_point_to_pixel_coordinates (raster : Dataset) (point : point_arg)
  (oob_fail : bool) :
  raises_only builtin (point_to_pixel_coordinates raster point oob_fail).
Proof.
  unfold point_to_pixel_coordinates. apply raises_only_bind.
  - destruct point; raises.
  - intros [x_geo y_geo]. raises.
Qed.

Lemma raises_only_pixel_bounds_from_polygon (raster : Dataset) (polygon : Geometry) :
  raises_only builtin (pixel_bounds_from_polygon raster polygon).
Proof.
  unfold pixel_bounds_from_polygon.
  destruct (GetEnvelope _) as [[[xa xb] ya] yb].
  apply raises_only_bind; [ apply raises_only_point_to_pixel_coordinates | ].
  intros [c1 r1].
  apply raises_only_bind; [ apply raises_only_point_to_pixel_coordinates | ].
  intros [c2 r2].
  destruct (c1 >=? c2)%Z, (r1 >=? r2)%Z; exact I.
Qed.

Lemma raises_only_get_combined_polygon (rasters : list Dataset) (mode : string) :
  raises_only builtin (get_combined_polygon rasters mode).
Proof.
  unfold get_combined_polygon, multiple_intersection, multiple_union. raises.
Qed.

Lemma raises_only_create_new_image_from_polygon (polygon : Geometry) (out_path : string)
  (x_res y_res : Q) (bands : Z) (projection : string) :
  raises_only builtin
    (create_new_image_from_polygon polygon out_path x_res y_res bands projection).
Proof.
  unfold create_new_image_from_polygon.
  destruct (GetEnvelope polygon) as [[[xa xb] ya] yb]. raises.
Qed.

Lemma raises_only_open_all (w : World) (paths : list string) :
  raises_only builtin (open_all w paths).
Proof.
  induction paths as [ | p paths IH]; simpl; raises.
Qed.

Lemma raises_only_stack_images_body (out_raster : Dataset) (combined : Geometry)
  (state : Np.buffer * Z) (in_raster : Dataset) :
  raises_only builtin (stack_images_body out_raster combined state in_raster).
Proof.
  unfold stack_images_body. destruct state as [out_buffer present_layer].
  apply raises_only_bind; [ apply raises_only_pixel_bounds_from_polygon | ].
  intros [[[a b] c] d].
  apply raises_only_bind; [ apply raises_only_pixel_bounds_from_polygon | ].
  intros [[[a' b'] c'] d']. raises.
Qed.

Lemma raises_only_combine_masks_body (combination_func : string) (out_mask : Dataset)
  (combined : Geometry) (out_buffer : Np.buffer) (in_mask : Dataset) :
  raises_only builtin
    (combine_masks_body combination_func out_mask combined out_buffer in_mask).
Proof.
  unfold combine_masks_body, Np.bitwise_or, Np.bitwise_and.
  apply raises_only_bind; [ apply raises_only_pixel_bounds_from_polygon | ].
  intros [[[a b] c] d].
  apply raises_only_bind; [ apply raises_only_pixel_bounds_from_polygon | ].
  intros [[[a' b'] c'] d']. raises.
Qed.

Lemma raises_only_combine_masks (w : World) (mask_paths : list string) (out_path : string)
  (combination_func geometry_func : string) :
  raises_only builtin (combine_masks w mask_paths out_path combination_func geometry_func).
Proof.
  unfold combine_masks.
  apply raises_only_bind; [ apply raises_only_open_all | intros masks ].
  apply raises_only_bind; [ apply raises_only_get_combined_polygon | intros combined ].
  apply raises_only_bind; [ apply raises_only_first | intros m0 ].
  apply raises_only_bind; [ apply raises_only_create_new_image_from_polygon | intros out ].
  apply raises_only_bind; [ | intros; exact I ].
  apply raises_only_for_each. intros. apply raises_only_combine_masks_body.
Qed.

(** Past its length test, [stack_images] ends in built-in exceptions only. *)
Lemma raises_only_stack_images_rest (w : World) (raster_paths : list string)
  (out_raster_path geometry_mode : string) :
  (Z.of_nat (List.length raster_paths) <=? 1)%Z = false ->
  raises_only builtin (stack_images w raster_paths out_raster_path geometry_mode).
Proof.
  intros Hlen. unfold stack_images. rewrite Hlen.
  apply raises_only_bind; [ apply raises_only_open_all | intros rasters ].
  apply raises_only_bind; [ apply raises_only_first | intros r0 ].
  apply raises_only_bind; [ apply raises_only_get_combined_polygon | intros combined ].
  apply raises_only_bind; [ apply raises_only_create_new_image_from_polygon | intros out ].
  apply raises_only_bind; [ | intros [buf pl]; exact I ].
  apply raises_only_for_each. intros. apply raises_only_stack_images_body.
Qed.

Lemma raises_only_stack_images (w : World) (raster_paths : list string)
  (out_raster_path geometry_mode : string) :
  raises_only not_CreateNewStacksException
    (stack_images w raster_paths out_raster_path geometry_mode).
Proof.
  destruct (Z.of_nat (List.length raster_paths) <=? 1)%Z eqn:Hlen.
  - unfold stack_images. rewrite Hlen. reflexivity.
  - apply (raises_only_weaken builtin); [ now intros [ ] | ].
    now apply raises_only_stack_images_rest.
Qed.

Lemma builtin_not_CreateNewStacksException (e : exn) :
  builtin e = true -> not_CreateNewStacksException e = true.
Proof. now destruct e. Qed.

Lemma raises_only_strptime (ts : string) : raises_only builtin (Timestamp.strptime ts).
Proof.
  unfold Timestamp.strptime.
  match goal with |- raises_only _ (if ?b then _ else _) => destruct b end; reflexivity.
Qed.

Lemma raises_only_get_image_acquisition_time (image_name : string) :
  raises_only builtin (get_image_acquisition_time image_name).
Proof.
  unfold get_image_acquisition_time, get_sen_2_image_timestamp.
  apply raises_only_bind; [ apply raises_only_not_None | intros; apply raises_only_strptime ].
Qed.

Lemma raises_only_sort_by_timestamp (strings : list string) :
  raises_only builtin (sort_by_timestamp strings).
Proof.
  unfold sort_by_timestamp. apply raises_only_bind; [ | intros; exact I ].
  induction strings as [ | s strings IH]; simpl; [ exact I | ].
  apply raises_only_bind; [ apply raises_only_get_image_acquisition_time | intros k ].
  apply raises_only_bind; [ exact IH | intros; exact I ].
Qed.

Lemma raises_only_select_images (w : World) (threshold : Q) (files : list string) :
  forall (new_data_poly : Geometry) (to_be_stacked : list string),
    raises_only builtin (select_images w threshold files new_data_poly to_be_stacked).
Proof.
  induction files as [ | file files IH]; intros new_data_poly to_be_stacked; simpl;
    [ exact I | ].
  apply raises_only_bind; [ apply raises_only_not_None | intros image ].
  destruct (truth _); [ | apply IH ].
  destruct (negb _); [ exact I | apply IH ].
Qed.

Lemma raises_only_stack_old_and_new_images (w : World) (old_image_path new_image_path : string)
  (out_dir : string) (create_combined_mask : bool) :
  raises_only not_CreateNewStacksException
    (stack_old_and_new_images w old_image_path new_image_path out_dir create_combined_mask).
Proof.
  unfold stack_old_and_new_images, get_sen_2_image_timestamp.
  apply raises_only_bind;
    [ apply (raises_only_weaken builtin);
      [ apply builtin_not_CreateNewStacksException | apply raises_only_not_None ]
    | intros old_timestamp ].
  apply raises_only_bind;
    [ apply (raises_only_weaken builtin);
      [ apply builtin_not_CreateNewStacksException | apply raises_only_not_None ]
    | intros new_timestamp ].
  apply raises_only_bind; [ apply raises_only_stack_images | intros w1 ].
  apply raises_only_bind; [ | intros; exact I ].
  destruct create_combined_mask; [ | exact I ].
  apply raises_only_bind; [ | intros [out w2]; exact I ].
  apply (raises_only_weaken builtin);
    [ apply builtin_not_CreateNewStacksException | apply raises_only_combine_masks ].
Qed.

Lemma raises_only_stack_selected (latest_image_path stack_dir : string)
  (to_be_stacked : list string) :
  forall (w : World) (new_images : list string),
    raises_only not_CreateNewStacksException
      (stack_selected w latest_image_path stack_dir to_be_stacked new_images).
Proof.
  induction to_be_stacked as [ | image rest IH]; intros w new_images; simpl; [ exact I | ].
  destruct (existsb _ _); [ exact I | ].
  apply raises_only_bind; [ apply raises_only_stack_old_and_new_images | ].
  intros [new_image w1]. apply IH.
Qed.

(** Past its emptiness test, [create_new_stacks] never ends in a
    [CreateNewStacksException]. *)
Lemma raises_only_create_new_stacks_rest (w : World) (image_dir stack_dir : string)
  (threshold : Q) :
  glob_gtif w image_dir <> [] ->
  raises_only not_CreateNewStacksException
    (create_new_stacks w image_dir stack_dir threshold).
Proof.
  intros Hfiles. unfold create_new_stacks.
  destruct (glob_gtif w image_dir) as [ | f files] eqn:E; [ contradiction | ].
  cbn [List.length Nat.eqb].
  apply raises_only_bind;
    [ apply (raises_only_weaken builtin);
      [ apply builtin_not_CreateNewStacksException | apply raises_only_sort_by_timestamp ]
    | intros safe_files ].
  apply raises_only_bind;
    [ apply (raises_only_weaken builtin);
      [ apply builtin_not_CreateNewStacksException | apply raises_only_first ]
    | intros latest_image_path ].
  apply raises_only_bind;
    [ apply (raises_only_weaken builtin);
      [ apply builtin_not_CreateNewStacksException | apply raises_only_not_None ]
    | intros latest_image ].
  apply raises_only_bind;
    [ apply (raises_only_weaken builtin);
      [ apply builtin_not_CreateNewStacksException | apply raises_only_select_images ]
    | intros to_be_stacked ].
  apply raises_only_stack_selected.
Qed.

End Raising.

(** ** Folding footprints *)

Section Folding.

Context {ogr : OGR}.

(** C10. [multiple_union] and [multiple_intersection] start from
    [polygons[0]]: on the empty list they end in an [IndexError] rather
    than return an empty or neutral polygon, and so does
    [get_combined_polygon] on no rasters in either geometry mode (any other
    mode is rejected); on a non-empty list both folds return a polygon. *)
Theorem polygon_folds_need_nonempty_list :
  multiple_union [] = Raise IndexError
  /\ multiple_intersection [] = Raise IndexError
  /\ get_combined_polygon [] "intersect" = Raise IndexError
  /\ get_combined_polygon [] "union" = Raise IndexError
  /\ (forall mode : string, is_exn (get_combined_polygon [] mode) = true)
  /\ (forall (p : Geometry) (ps : list Geometry),
        multiple_union (p :: ps) = Ok (Simplify (fold_left Union ps p) 0)
        /\ multiple_intersection (p :: ps) = Ok (Simplify (fold_left Intersection ps p) 0)).
Proof.
  repeat split.
  intros mode. unfold get_combined_polygon.
  destruct (String.eqb mode "intersect"); [ reflexivity | ].
  destruct (String.eqb mode "union"); reflexivity.
Qed.

End Folding.

(** ** Stacking *)

Section Stacking.

Context {ogr : OGR}.


Lemma bind_Ok {A B : Type} (c : result A) (k : A -> result B) (b : B) :
  bind c k = Ok b -> exists a, c = Ok a /\ k a = Ok b.
Proof. destruct c as [a | e]; simpl; [ eauto | discriminate ]. Qed.



Lemma create_new_image_from_polygon_bands (polygon : Geometry) (out_path : string)
  (x_res y_res : Q) (bands : Z) (projection : string) (out : Dataset) :
  create_new_image_from_polygon polygon out_path x_res y_res bands projection = Ok out ->
  RasterCount out = bands
  /\ pixels out = repeat 0%Z (Z.to_nat bands * Z.to_nat (RasterYSize out)
                              * Z.to_nat (RasterXSize out)).
Proof.
  unfold create_new_image_from_polygon.
  destruct (GetEnvelope polygon) as [[[xa xb] ya] yb]. intros H.
  apply bind_Ok in H. destruct H as [qw [_ H]].
  apply bind_Ok in H. destruct H as [qh [_ H]].
  apply bind_Ok in H. destruct H as [created [Hc H]].
  injection H as <-. simpl.
  unfold driver_Create in Hc.
  destruct ((bands <? 1)%Z || (Py.int qw <? 1)%Z || (Py.int qh <? 1)%Z); [ discriminate | ].
  simpl in Hc. injection Hc as <-. simpl. split; reflexivity.
Qed.


Lemma gdal_Open_write_dataset (w : World) (path : string) (d : Dataset) :
  gdal_Open (write_dataset w path d) path = Some d.
Proof. simpl. now rewrite String.eqb_refl. Qed.

Lemma stack_images_short (w : World) (raster_paths : list string)
  (out_raster_path geometry_mode : string) :
  (List.length raster_paths < 2)%nat ->
  stack_images w raster_paths out_raster_path geometry_mode
  = Raise (StackImagesException "stack_images requires at least two input images").
Proof.
  intros Hlen. unfold stack_images.
  destruct (Z.leb_spec (Z.of_nat (List.length raster_paths)) 1); [ reflexivity | lia ].
Qed.

(** C8. [stack_images] raises its [StackImagesException] (the
    specification's DimensionMismatch) if and only if fewer than two raster
    paths are given; with two or more, whatever else may go wrong, that
    exception is not raised. *)
Theorem stack_images_exception_iff_too_few (w : World) (raster_paths : list string)
  (out_raster_path geometry_mode : string) :
  signals (stack_images w raster_paths out_raster_path geometry_mode) DimensionMismatch
  <-> (List.length raster_paths < 2)%nat.
Proof.
  split.
  - intros [e [Hr Hc]].
    destruct (Nat.lt_ge_cases (List.length raster_paths) 2) as [Hlt | Hge]; [ exact Hlt | ].
    exfalso.
    assert (Hlen : (Z.of_nat (List.length raster_paths) <=? 1)%Z = false).
    { apply Z.leb_gt. lia. }
    pose proof (raises_only_stack_images_rest w raster_paths out_raster_path
                  geometry_mode Hlen) as Hb.
    rewrite Hr in Hb. simpl in Hb.
    destruct e; simpl in Hc, Hb; discriminate.
  - intros Hlen. rewrite (stack_images_short _ _ _ _ Hlen).
    eexists. split; reflexivity.
Qed.

End Stacking.

(** ** Rasters that do not overlap *)

Section NoOverlap.

Local Open Scope Q_scope.

Lemma int_zero_quotient (x : Q) : Py.int ((0 - 0) / x) = 0%Z.
Proof. destruct x as [[ | n | n] d]; reflexivity. Qed.

Lemma create_new_image_from_empty_polygon (out_path : string) (x_res y_res : Q)
  (bands : Z) (projection : string) :
  ~ x_res == 0 ->
  ~ y_res == 0 ->
  create_new_image_from_polygon (ogr := BoxGeometry) [] out_path x_res y_res bands projection
  = Raise AttributeError.
Proof.
  intros Hx Hy. unfold create_new_image_from_polygon.
  cbn [GetEnvelope BoxGeometry Box.envelope].
  rewrite (truediv_nonzero _ _ Hx). cbn [bind].
  rewrite (truediv_nonzero _ _ Hy). cbn [bind].
  rewrite !int_zero_quotient. unfold driver_Create.
  destruct (bands <? 1)%Z; reflexivity.
Qed.

Lemma no_exception_signals_NoOverlap {A : Type} (r : result A) : ~ signals r NoOverlap.
Proof. intros [e [_ Hc]]. destruct e; discriminate. Qed.

(** C3, as the code has it.  For two rasters with disjoint footprints, in
    intersect mode, nothing signals the missing overlap:
    [multiple_intersection] and [get_combined_polygon] return the empty
    polygon, [stack_images] asks for an output raster of its all-zero
    envelope, 0 by 0, which the driver refuses, and the call ends in the
    [AttributeError] of using that refusal; no raster is written. *)
Theorem stack_images_disjoint_intersect (w : World) (path1 path2 : string)
  (raster1 raster2 : Dataset) (out_raster_path : string) :
  gdal_Open w path1 = Some raster1 ->
  gdal_Open w path2 = Some raster2 ->
  Intersection (get_raster_bounds raster1) (get_raster_bounds raster2) = [] ->
  ~ gt1 (GetGeoTransform raster1) == 0 ->
  ~ gt5 (GetGeoTransform raster1) == 0 ->
  multiple_intersection [get_raster_bounds raster1; get_raster_bounds raster2] = Ok []
  /\ get_combined_polygon [raster1; raster2] "intersect" = Ok []
  /\ @GetEnvelope BoxGeometry [] = (0, 0, 0, 0)
  /\ driver_Create 0 0 (RasterCount raster1 + RasterCount raster2) = None
  /\ stack_images w [path1; path2] out_raster_path "intersect" = Raise AttributeError
  /\ ~ signals (stack_images w [path1; path2] out_raster_path "intersect") NoOverlap.
Proof.
  intros H1 H2 Hdisjoint Hx Hy.
  assert (Hfold : multiple_intersection
                    [get_raster_bounds raster1; get_raster_bounds raster2] = Ok []).
  { unfold multiple_intersection. cbn [first bind tl fold_left].
    rewrite Hdisjoint. reflexivity. }
  assert (Hcomb : get_combined_polygon [raster1; raster2] "intersect" = Ok []).
  { unfold get_combined_polygon. cbn [map]. exact Hfold. }
  assert (Hy' : ~ gt5 (GetGeoTransform raster1) * inject_Z (-1) == 0).
  { intros E. apply Hy. change (inject_Z (-1)) with (-1 # 1) in E. lra. }
  split; [ exact Hfold | ].
  split; [ exact Hcomb | ].
  split; [ reflexivity | ].
  split; [ unfold driver_Create;
           destruct (RasterCount raster1 + RasterCount raster2 <? 1)%Z; reflexivity | ].
  split; [ | apply no_exception_signals_NoOverlap ].
  unfold stack_images. cbn [List.length Z.of_nat].
  change (Z.pos (Pos.of_succ_nat 1) <=? 1)%Z with false. cbn iota.
  cbn [open_all]. rewrite H1, H2. cbn [not_None bind first].
  rewrite Hcomb. cbn [bind].
  rewrite (create_new_image_from_empty_polygon _ _ _ _ _ Hx Hy'). reflexivity.
Qed.

End NoOverlap.

(** ** Combining masks *)

Section Masks.

Context {ogr : OGR}.

Lemma combine_masks_body_keeps_buffer (combination_func : string) (out_mask : Dataset)
  (combined : Geometry) (buf buf' : Np.buffer) (in_mask : Dataset) :
  combine_masks_body combination_func out_mask combined buf in_mask = Ok buf' ->
  buf' = buf.
Proof.
  unfold combine_masks_body. intros H.
  apply bind_Ok in H. destruct H as [[[[a b] c] d] [_ H]].
  apply bind_Ok in H. destruct H as [[[[a' b'] c'] d'] [_ H]].
  apply bind_Ok in H. destruct H as [ov [_ H]].
  apply bind_Ok in H. destruct H as [iv [_ H]].
  apply bind_Ok in H. destruct H as [fresh [_ H]].
  now injection H as <-.
Qed.

Lemma combine_masks_loop_keeps_buffer (combination_func : string) (out_mask : Dataset)
  (combined : Geometry) (masks : list Dataset) :
  forall buf buf' : Np.buffer,
    for_each (combine_masks_body combination_func out_mask combined) masks buf = Ok buf' ->
    buf' = buf.
Proof.
  induction masks as [ | m masks IH]; intros buf buf' H; simpl in H.
  - now injection H as <-.
  - apply bind_Ok in H. destruct H as [buf1 [Hstep Hrest]].
    apply combine_masks_body_keeps_buffer in Hstep. subst buf1. now apply IH.
Qed.

(** Whatever the masks hold and whichever of ['or'] and ['and'] is asked
    for, the mask that [combine_masks] writes is the blank raster it
    created. *)
Lemma combine_masks_writes_blank (w w' : World) (mask_paths : list string)
  (out_path out : string) (combination_func geometry_func : string) :
  combine_masks w mask_paths out_path combination_func geometry_func = Ok (out, w') ->
  out = out_path
  /\ exists out_mask : Dataset,
      gdal_Open w' out_path = Some out_mask
      /\ RasterCount out_mask = 1%Z
      /\ Forall (fun v => v = 0%Z) (pixels out_mask).
Proof.
  unfold combine_masks. intros H.
  apply bind_Ok in H. destruct H as [masks [_ H]].
  apply bind_Ok in H. destruct H as [combined [_ H]].
  apply bind_Ok in H. destruct H as [m0 [_ H]].
  apply bind_Ok in H. destruct H as [out_mask [Hcreate H]].
  apply bind_Ok in H. destruct H as [buf [Hloop H]].
  injection H as <- <-.
  apply combine_masks_loop_keeps_buffer in Hloop. subst buf.
  apply create_new_image_from_polygon_bands in Hcreate. destruct Hcreate as [Hb Hp].
  split; [ reflexivity | ].
  exists (with_pixels out_mask (pixels out_mask)).
  split; [ apply gdal_Open_write_dataset | ].
  split; [ exact Hb | ].
  cbn [pixels with_pixels]. rewrite Hp. apply Forall_forall.
  intros v Hv. now apply repeat_spec in Hv.
Qed.

End Masks.

(** C1, at the masks of the specification's scenario.  [combine_masks]
    with ['or'] on three identically aligned masks holding
    [1 1 0], [1 0 0] and [0 1 0] writes a single-band mask holding
    [0 0 0]; the elementwise OR of the three is [1 1 0].  With ['and'] it
    writes [0 0 0] as well. *)
Theorem combine_masks_or_scenario :
  exists w_or w_and : World,
    combine_masks Sample.mask_world ["m1.msk"; "m2.msk"; "m3.msk"]%string "out.msk"
                  "or" "intersect" = Ok ("out.msk"%string, w_or)
    /\ option_map pixels (gdal_Open w_or "out.msk") = Some [0; 0; 0]
    /\ option_map RasterCount (gdal_Open w_or "out.msk") = Some 1
    /\ map (fun v => Z.lor (Z.lor (fst (fst v)) (snd (fst v))) (snd v))
           (combine (combine [1; 1; 0] [1; 0; 0]) [0; 1; 0]) = [1; 1; 0]
    /\ combine_masks Sample.mask_world ["m1.msk"; "m2.msk"; "m3.msk"]%string "out.msk"
                     "and" "intersect" = Ok ("out.msk"%string, w_and)
    /\ option_map pixels (gdal_Open w_and "out.msk") = Some [0; 0; 0].
Proof.
  do 2 eexists.
  split; [ vm_compute; reflexivity | ].
  split; [ vm_compute; reflexivity | ].
  split; [ vm_compute; reflexivity | ].
  split; [ reflexivity | ].
  split; [ vm_compute; reflexivity | ].
  vm_compute; reflexivity.
Qed.

(** ** Selecting the images to stack *)

Section CoverSelection.

Context {ogr : OGR}.

Lemma get_image_acquisition_time_raises (image_name : string) (e : exn) :
  get_image_acquisition_time image_name = Raise e -> e = AttributeError \/ e = ValueError.
Proof.
  unfold get_image_acquisition_time, get_sen_2_image_timestamp, Timestamp.strptime.
  destruct (Timestamp.re_search image_name) as [ts | ]; cbn [not_None bind].
  - match goal with |- (if ?b then _ else _) = _ -> _ => destruct b end;
      intros E; [ discriminate | injection E as <-; now right ].
  - intros E. injection E as <-. now left.
Qed.

(** C4, as the code has it.  [create_new_stacks] raises its
    [CreateNewStacksException] (the specification's EmptyInputSet) if and
    only if [glob] finds no [.gtif] file in the image directory, the
    newest image included.  With the newest image there and no older one
    it does not raise it: it returns no new stack when the name of that
    image holds a Sentinel-2 timestamp that is a valid date and the file
    opens as a raster, and it ends in an [AttributeError] or a
    [ValueError] otherwise. *)
Theorem create_new_stacks_exception_iff_no_images (w : World)
  (image_dir stack_dir : string) (threshold : Q) :
  (signals (create_new_stacks w image_dir stack_dir threshold) EmptyInputSet
   <-> glob_gtif w image_dir = [])
  /\ (forall newest : string,
        glob_gtif w image_dir = [newest] ->
        (create_new_stacks w image_dir stack_dir threshold = Ok ([], w)
         <-> ((exists t : Z, get_image_acquisition_time newest = Ok t)
              /\ gdal_Open w newest <> None))
        /\ (forall r : list string * World,
              create_new_stacks w image_dir stack_dir threshold = Ok r -> r = ([], w))
        /\ (forall e : exn,
              create_new_stacks w image_dir stack_dir threshold = Raise e ->
              e = AttributeError \/ e = ValueError)).
Proof.
  split.
  - split.
    + intros [e [Hr Hc]].
      destruct (glob_gtif w image_dir) as [ | f files] eqn:E; [ reflexivity | ].
      exfalso.
      assert (Hne : glob_gtif w image_dir <> []) by (rewrite E; discriminate).
      pose proof (raises_only_create_new_stacks_rest w image_dir stack_dir threshold Hne)
        as Hb.
      rewrite Hr in Hb. simpl in Hb.
      destruct e; simpl in Hc, Hb; discriminate.
    + intros E. unfold create_new_stacks. rewrite E. cbn [List.length Nat.eqb].
      eexists. split; reflexivity.
  - intros newest E. unfold create_new_stacks, sort_by_timestamp. rewrite E.
    cbn [List.length Nat.eqb keyed].
    destruct (get_image_acquisition_time newest) as [t | e0] eqn:Et; cbn [bind].
    + cbn [fold_left insert_desc map snd first tl bind].
      destruct (gdal_Open w newest) as [latest | ]; cbn [not_None bind select_images
                                                           stack_selected].
      * split; [ split; [ intros _; split; [ now exists t | discriminate ] | reflexivity ] | ].
        split; [ intros r Hr; now injection Hr as <- | discriminate ].
      * split; [ split; [ discriminate | intros [_ N]; now contradiction N ] | ].
        split; [ discriminate | intros e He; injection He as <-; now left ].
    + split; [ split; [ discriminate | intros [[t Ht] _]; discriminate ] | ].
      split; [ discriminate | ].
      intros e He. injection He as <-.
      now apply (get_image_acquisition_time_raises newest).
Qed.

End CoverSelection.

(** ** The properties at sample rasters *)

Section Samples.

Local Open Scope Q_scope.

Lemma one_nonzero : ~ 1 == 0.
Proof. unfold Qeq. simpl. lia. Qed.

Lemma minus_one_nonzero : ~ -1 == 0.
Proof. unfold Qeq. simpl. lia. Qed.

(** The footprint of [one_band] against itself: the rows come out as
    (2, 0) and are returned as (0, 2). *)
Lemma pixel_bounds_from_polygon_normalized_witness :
  pixel_bounds_from_polygon (ogr := BoxGeometry) Sample.one_band
    (get_raster_bounds Sample.one_band) = Ok (0, 2, 0, 2)%Z
  /\ (0 <= 2)%Z /\ (0 <= 2)%Z.
Proof.
  split; [ reflexivity | ].
  apply (proj1 (pixel_bounds_from_polygon_normalized
                  (ogr := BoxGeometry) Sample.one_band
                  (get_raster_bounds Sample.one_band)) 0 2 0 2)%Z.
  reflexivity.
Defined.

(** The footprint of [one_band]: x from 0 to 2, y from 0 to 2. *)
Example one_band_footprint :
  @GetEnvelope BoxGeometry (get_raster_bounds Sample.one_band) = (0, 2, 0, 2).
Proof. vm_compute. reflexivity. Qed.

Lemma disjoint_samples :
  @Intersection BoxGeometry (get_raster_bounds Sample.one_band)
                (get_raster_bounds Sample.far_away) = [].
Proof. reflexivity. Qed.

Lemma stack_images_disjoint_intersect_witness :
  get_combined_polygon (ogr := BoxGeometry) [Sample.one_band; Sample.far_away] "intersect"
  = Ok []
  /\ stack_images (ogr := BoxGeometry) Sample.stack_world ["a.tif"; "c.tif"]%string
       "out.tif" "intersect" = Raise AttributeError.
Proof.
  destruct (stack_images_disjoint_intersect Sample.stack_world "a.tif" "c.tif"
              Sample.one_band Sample.far_away "out.tif"
              eq_refl eq_refl disjoint_samples one_nonzero minus_one_nonzero)
    as [_ [Hcomb [_ [_ [Hrun _]]]]].
  split; [ exact Hcomb | exact Hrun ].
Defined.

(** C3, as the specification has it, fails: for two rasters ten units
    apart the fold returns the empty polygon without raising, and the
    exception [stack_images] ends in is the [AttributeError] of the
    refused 0 by 0 raster, which stands for no condition of the
    specification. *)
Lemma stack_images_disjoint_no_NoOverlap :
  multiple_intersection (ogr := BoxGeometry)
    [get_raster_bounds Sample.one_band; get_raster_bounds Sample.far_away] = Ok []
  /\ stack_images (ogr := BoxGeometry) Sample.stack_world ["a.tif"; "c.tif"]%string
       "out.tif" "intersect" = Raise AttributeError
  /\ condition_of AttributeError = None
  /\ ~ signals (stack_images (ogr := BoxGeometry) Sample.stack_world
                  ["a.tif"; "c.tif"]%string "out.tif" "intersect") NoOverlap.
Proof.
  split; [ reflexivity | ].
  split; [ vm_compute; reflexivity | ].
  split; [ reflexivity | ].
  intros [e [Hr Hc]]. destruct e; discriminate.
Qed.

Lemma create_new_stacks_exception_iff_no_images_witness :
  create_new_stacks (ogr := BoxGeometry) Sample.single_image_world "images" "stacks" 100
  = Ok ([], Sample.single_image_world).
Proof.
  apply (proj1 (proj2 (create_new_stacks_exception_iff_no_images (ogr := BoxGeometry)
                         Sample.single_image_world "images" "stacks" 100)
                      "images/S2A_20180101T101010.gtif"%string eq_refl)).
  split.
  - eexists. vm_compute. reflexivity.
  - intros H. vm_compute in H. discriminate H.
Defined.

(** C4, as the specification has it, fails: with the newest image in the
    directory and no older one, [create_new_stacks] returns an empty list
    of new stacks and raises nothing. *)
Lemma create_new_stacks_newest_image_only :
  glob_gtif Sample.single_image_world "images" = ["images/S2A_20180101T101010.gtif"%string]
  /\ tl (glob_gtif Sample.single_image_world "images") = []
  /\ create_new_stacks (ogr := BoxGeometry) Sample.single_image_world "images" "stacks" 100
     = Ok ([], Sample.single_image_world)
  /\ ~ signals (create_new_stacks (ogr := BoxGeometry) Sample.single_image_world
                  "images" "stacks" 100) EmptyInputSet.
Proof.
  split; [ reflexivity | ].
  split; [ reflexivity | ].
  assert (Hrun : create_new_stacks (ogr := BoxGeometry) Sample.single_image_world
                   "images" "stacks" 100 = Ok ([], Sample.single_image_world)).
  { vm_compute. reflexivity. }
  split; [ exact Hrun | ].
  intros [e [Hr _]]. rewrite Hrun in Hr. discriminate.
Qed.

End Samples.

(** * Pixel counts and pixel indexes in binary64

    [create_new_image_from_polygon] and [point_to_pixel_coordinates]
    turn a quotient of doubles into an integer.  Here they are embedded
    over binary64 floats: subtraction, multiplication and division round
    as IEEE 754 prescribes, division by zero raises, and [int] and
    [np.floor] work on the exact value of the rounded quotient. *)

Module Binary64.

(** ** Python floats *)

(** The exact value of a float that is finite. *)
Definition value (f : float) : option Q :=
  match Prim2SF f with
  | S754_zero _ => Some 0%Q
  | S754_finite s m e =>
      let n := if s then Z.neg m else Z.pos m in
      Some (match e with
            | Z.neg p => Qmake n (Pos.pow 2 p)
            | _ => inject_Z (n * 2 ^ e)
            end)
  | S754_infinity _ | S754_nan => None
  end.

(** What [int] raises on a float that is not finite: [ValueError] on NaN,
    [OverflowError] on an infinity. *)
Definition cannot_convert (f : float) : exn :=
  if is_nan f then ValueError else OverflowError.

(** [int(f)]: truncation toward zero. *)
Definition int (f : float) : result Z :=
  match value f with
  | Some q => Ok (Py.int q)
  | None => Raise (cannot_convert f)
  end.

(** [int(np.floor(f))]: [np.floor] keeps infinities and NaN. *)
Definition int_floor (f : float) : result Z :=
  match value f with
  | Some q => Ok (Qfloor q)
  | None => Raise (cannot_convert f)
  end.

(** [a / b] on Python floats. *)
Definition truediv (a b : float) : result float :=
  if PrimFloat.eqb b 0 then Raise ZeroDivisionError else Ok (a / b)%float.

(** The float of an integer below 2^63 in size, which pixel indexes and
    raster sizes are. *)
Definition of_int (n : Z) : float :=
  if n <? 0 then PrimFloat.opp (PrimFloat.of_uint63 (Uint63.of_Z (- n)))
  else PrimFloat.of_uint63 (Uint63.of_Z n).

(** ** GDAL datasets and OGR geometries with double coefficients *)

Record GeoTransform : Type := mk_gt {
  gt0 : float;  (* x of the top-left corner *)
  gt1 : float;  (* pixel width *)
  gt2 : float;
  gt3 : float;  (* y of the top-left corner *)
  gt4 : float;
  gt5 : float   (* pixel height, negative for north-up rasters *)
}.

Record Dataset : Type := mk_dataset {
  RasterCount : Z;
  RasterXSize : Z;
  RasterYSize : Z;
  GetGeoTransform : GeoTransform;
  GetProjection : string;
  pixels : Np.buffer   (* band, row, column order *)
}.

(** [driver.Create(path, xsize, ysize, bands, eType)] of the GTiff driver:
    a zero-filled raster with GDAL's default geotransform, or [None] when
    the driver rejects the request (a size or a band count below one). *)
Definition driver_Create (xsize ysize bands : Z) : option Dataset :=
  if (bands <? 1) || (xsize <? 1) || (ysize <? 1) then None
  else Some (mk_dataset bands xsize ysize
               (mk_gt 0 1 0 0 0 1) EmptyString
               (repeat 0 (Z.to_nat bands * Z.to_nat ysize * Z.to_nat xsize))).

(** The largest size or band count that the C [int] arguments of
    [driver.Create] hold. *)
Definition c_int_max : Z := 2147483647.

(** The operations of OGR that the two functions use. *)
Class OGR : Type := {
  Geometry : Type;
  (** [(min_x, max_x, min_y, max_y)] *)
  GetEnvelope : Geometry -> float * float * float * float;
  CreateGeometryFromWkt : string -> option Geometry;
  GetX : Geometry -> float;
  GetY : Geometry -> float
}.

Section Core.

Context {ogr : OGR}.

(** The three kinds of value [point_to_pixel_coordinates] accepts for
    [point]: a WKT string, a list or tuple, an [ogr.Geometry]. *)
Inductive point_arg : Type :=
| PointStr (wkt : string)
| PointSeq (coords : list float)
| PointGeom (g : Geometry).

(** A WKT string is first replaced by the geometry it denotes, which the
    last of the three [isinstance] tests then reads again; [oob_fail] is
    bound and not used.  The column is converted before the second
    quotient is formed. *)
Definition point_to_pixel_coordinates
  (raster : Dataset) (point : point_arg) (oob_fail : bool) : result (Z * Z) :=
  '(x_geo, y_geo) <-
    match point with
    | PointStr wkt =>
        g <- not_None (CreateGeometryFromWkt wkt) ;;
        Ok (GetX g, GetY g)
    | PointSeq coords =>
        x <- item coords 0 ;;
        y <- item coords 1 ;;
        Ok (x, y)
    | PointGeom g => Ok (GetX g, GetY g)
    end ;;
  let gt := GetGeoTransform raster in
  qx <- truediv (x_geo - gt0 gt)%float (gt1 gt) ;;
  x_pixel <- int_floor qx ;;
  qy <- truediv (y_geo - gt3 gt)%float (gt5 gt) ;;
  y_pixel <- int_floor qy ;;
  Ok (x_pixel, y_pixel).

(** The created raster is what [out_path] holds once the caller lets go of
    it; [format] and [datatype] keep their defaults, GTiff and Int32.
    [driver.Create] answers [None] to a request it rejects, and the call of
    [SetGeoTransform] on that raises.  The width is converted before the
    second quotient is formed. *)
Definition create_new_image_from_polygon
  (polygon : Geometry) (out_path : string) (x_res y_res : float) (bands : Z)
  (projection : string) : result Dataset :=
  let '(bounds_x_min, bounds_x_max, bounds_y_min, bounds_y_max) := GetEnvelope polygon in
  qw <- truediv (bounds_x_max - bounds_x_min)%float x_res ;;
  final_width_pixels <- int qw ;;
  qh <- truediv (bounds_y_max - bounds_y_min)%float y_res ;;
  final_height_pixels <- int qh ;;
  out_raster <- not_None (driver_Create final_width_pixels final_height_pixels bands) ;;
  Ok (mk_dataset (RasterCount out_raster) (RasterXSize out_raster) (RasterYSize out_raster)
        (mk_gt bounds_x_min x_res 0 bounds_y_max 0 (y_res * -1)%float)
        projection
        (pixels out_raster)).

(** Modelled from the spec: [geoOf], the map of a GeoTransform from pixel
    (col, row) to geographic (x, y), evaluated in doubles from left to
    right.  core.py has no function for it. *)
Definition pixel_to_geo (gt : GeoTransform) (col row : Z) : float * float :=
  ((gt0 gt + of_int col * gt1 gt + of_int row * gt2 gt)%float,
   (gt3 gt + of_int col * gt4 gt + of_int row * gt5 gt)%float).

(** The coordinates a [point] argument stands for, when it has any. *)
Definition coords_of (point : point_arg) : option (float * float) :=
  match point with
  | PointStr wkt => option_map (fun g => (GetX g, GetY g)) (CreateGeometryFromWkt wkt)
  | PointSeq (x :: y :: _) => Some (x, y)
  | PointSeq _ => None
  | PointGeom g => Some (GetX g, GetY g)
  end.

End Core.

(** ** An implementation of the geometry operations

    A geometry is its envelope; a point is an envelope of no extent.  WKT
    is read for points with integer coordinates. *)

#[export] Instance Envelopes : OGR := {
  Geometry := float * float * float * float;
  GetEnvelope := fun g => g;
  CreateGeometryFromWkt := fun s =>
    match Box.of_wkt s with
    | Some (b :: _) =>
        let x := of_int (Qnum (Box.x0 b)) in
        let y := of_int (Qnum (Box.y0 b)) in
        Some (x, x, y, y)
    | _ => None
    end;
  GetX := fun g => fst (fst (fst g));
  GetY := fun g => snd (fst g)
}.

(** North-up rasters of 2 by 2 and 3 by 2 pixels: unit pixels at the
    origin, and pixels of 0.3 at x = 500000, y = 100. *)
Definition unit_raster : Dataset :=
  mk_dataset 1 2 2 (mk_gt 0 1 0 2 0 (-1)) "EPSG:4326" [1; 2; 3; 4].

Definition fine_raster : Dataset :=
  mk_dataset 1 3 2
    (mk_gt 500000 0x1.3333333333333p-2 0 100 0 (-0x1.3333333333333p-2))
    "EPSG:32630" [1; 2; 3; 4; 5; 6].

End Binary64.

(** ** Properties of the binary64 conversions *)

Section Binary64Properties.

Import Binary64.

Context {ogr : Binary64.OGR}.

Local Open Scope Q_scope.

Lemma Qfloor_iff (q : Q) (n : Z) :
  Qfloor q = n <-> inject_Z n <= q /\ q < inject_Z (n + 1).
Proof.
  split.
  - intros <-. split; [ apply Qfloor_le | apply Qlt_floor ].
  - intros [Hle Hlt]. apply Z.le_antisymm.
    + assert (H : inject_Z (Qfloor q) < inject_Z (n + 1)).
      { eapply Qle_lt_trans; [ apply Qfloor_le | exact Hlt ]. }
      rewrite <- Zlt_Qlt in H. lia.
    + rewrite <- (Qfloor_Z n). now apply Qfloor_resp_le.
Qed.

Lemma floor_negative (q : Q) : q < 0 -> (Qfloor q < 0)%Z.
Proof.
  intros Hq.
  assert (H : inject_Z (Qfloor q) < inject_Z 0).
  { eapply Qle_lt_trans; [ apply Qfloor_le | exact Hq ]. }
  now rewrite <- Zlt_Qlt in H.
Qed.

Lemma floor_at_least (q : Q) (n : Z) : inject_Z n <= q -> (n <= Qfloor q)%Z.
Proof. intros Hq. rewrite <- (Qfloor_Z n). now apply Qfloor_resp_le. Qed.

Lemma int_at_least_1 (q : Q) : 1 <= q -> (1 <= Py.int q)%Z /\ Py.int q = Qfloor q.
Proof.
  intros Hq. assert (E : Py.int q = Qfloor q) by (apply int_floor_nonneg; lra).
  split; [ | exact E ]. rewrite E. now apply (floor_at_least q 1).
Qed.

Lemma cannot_convert_not_ZeroDivisionError (f : float) :
  cannot_convert f <> ZeroDivisionError.
Proof. unfold cannot_convert. destruct (is_nan f); discriminate. Qed.

Lemma cannot_convert_not_AttributeError (f : float) :
  cannot_convert f <> AttributeError.
Proof. unfold cannot_convert. destruct (is_nan f); discriminate. Qed.

(** With non-zero pixel sizes and finite quotients, the result is the pair
    of their floors. *)
Lemma point_to_pixel_coordinates_finite (raster : Dataset) (x y : float)
  (rest : list float) (oob_fail : bool) (vx vy : Q) :
  PrimFloat.eqb (gt1 (GetGeoTransform raster)) 0 = false ->
  PrimFloat.eqb (gt5 (GetGeoTransform raster)) 0 = false ->
  value ((x - gt0 (GetGeoTransform raster)) / gt1 (GetGeoTransform raster))%float = Some vx ->
  value ((y - gt3 (GetGeoTransform raster)) / gt5 (GetGeoTransform raster))%float = Some vy ->
  point_to_pixel_coordinates raster (PointSeq (x :: y :: rest)) oob_fail
  = Ok (Qfloor vx, Qfloor vy).
Proof.
  intros H1 H5 Hx Hy. unfold point_to_pixel_coordinates, truediv, int_floor.
  cbn [item nth_error bind]. rewrite H1. cbn [bind]. rewrite Hx. cbn [bind].
  rewrite H5. cbn [bind]. rewrite Hy. reflexivity.
Qed.

Lemma point_to_pixel_coordinates_of_coords (raster : Dataset) (point : point_arg)
  (x y : float) (oob_fail : bool) :
  coords_of point = Some (x, y) ->
  point_to_pixel_coordinates raster point oob_fail
  = point_to_pixel_coordinates raster (PointSeq [x; y]) oob_fail.
Proof.
  intros Hc. unfold point_to_pixel_coordinates.
  destruct point as [wkt | coords | g]; simpl in Hc.
  - destruct (CreateGeometryFromWkt wkt) as [g | ]; simpl in Hc; [ | discriminate ].
    injection Hc as <- <-. reflexivity.
  - destruct coords as [ | x' [ | y' rest ] ]; try discriminate.
    injection Hc as <- <-. reflexivity.
  - injection Hc as <- <-. reflexivity.
Qed.

(** C6, as the code has it.  [point_to_pixel_coordinates] takes the floor
    of the two binary64 quotients [(x - gt0) / gt1] and [(y - gt3) / gt5]
    (the integer at or below each, not the nearest one).  It therefore
    returns [(c, r)] exactly when the quotients, as computed, lie in
    [c, c + 1) and [r, r + 1): the round trip of a pixel through its
    position comes back to the pixel under that condition and under no
    other. *)
Theorem point_to_pixel_coordinates_floors_quotients (raster : Dataset) (x y : float)
  (oob_fail : bool) (vx vy : Q) :
  PrimFloat.eqb (gt1 (GetGeoTransform raster)) 0 = false ->
  PrimFloat.eqb (gt5 (GetGeoTransform raster)) 0 = false ->
  value ((x - gt0 (GetGeoTransform raster)) / gt1 (GetGeoTransform raster))%float = Some vx ->
  value ((y - gt3 (GetGeoTransform raster)) / gt5 (GetGeoTransform raster))%float = Some vy ->
  exists col row : Z,
    point_to_pixel_coordinates raster (PointSeq [x; y]) oob_fail = Ok (col, row)
    /\ inject_Z col <= vx /\ vx < inject_Z (col + 1)
    /\ inject_Z row <= vy /\ vy < inject_Z (row + 1)
    /\ forall c r : Z,
        point_to_pixel_coordinates raster (PointSeq [x; y]) oob_fail = Ok (c, r)
        <-> (inject_Z c <= vx /\ vx < inject_Z (c + 1))
            /\ (inject_Z r <= vy /\ vy < inject_Z (r + 1)).
Proof.
  intros H1 H5 Hx Hy.
  pose proof (point_to_pixel_coordinates_finite raster x y [] oob_fail vx vy H1 H5 Hx Hy)
    as Hrun.
  exists (Qfloor vx), (Qfloor vy). rewrite Hrun.
  split; [ reflexivity | ].
  split; [ apply Qfloor_le | ]. split; [ apply Qlt_floor | ].
  split; [ apply Qfloor_le | ]. split; [ apply Qlt_floor | ].
  intros c r. rewrite <- !Qfloor_iff. split.
  - intros E. injection E as <- <-. split; reflexivity.
  - intros [<- <-]. reflexivity.
Qed.

(** C9, as the code has it.  [point_to_pixel_coordinates] never looks at
    [oob_fail]: both values give the same result on every input.  For a
    point given as a tuple, a WKT string or a geometry, non-zero pixel
    sizes and finite quotients it returns the floors of the quotients and
    raises nothing, wherever the point lies: a negative quotient gives a
    negative index, and a quotient of at least the raster's width or
    height gives an index of at least (not necessarily more than) the
    width or height. *)
Theorem point_to_pixel_coordinates_ignores_oob_fail (raster : Dataset) (point : point_arg) :
  (forall b1 b2 : bool,
      point_to_pixel_coordinates raster point b1 = point_to_pixel_coordinates raster point b2)
  /\ (forall (x y : float) (vx vy : Q),
        coords_of point = Some (x, y) ->
        PrimFloat.eqb (gt1 (GetGeoTransform raster)) 0 = false ->
        PrimFloat.eqb (gt5 (GetGeoTransform raster)) 0 = false ->
        value ((x - gt0 (GetGeoTransform raster)) / gt1 (GetGeoTransform raster))%float
        = Some vx ->
        value ((y - gt3 (GetGeoTransform raster)) / gt5 (GetGeoTransform raster))%float
        = Some vy ->
        forall oob_fail : bool,
          point_to_pixel_coordinates raster point oob_fail = Ok (Qfloor vx, Qfloor vy)
          /\ (vx < 0 -> (Qfloor vx < 0)%Z)
          /\ (inject_Z (RasterXSize raster) <= vx -> (RasterXSize raster <= Qfloor vx)%Z)
          /\ (vy < 0 -> (Qfloor vy < 0)%Z)
          /\ (inject_Z (RasterYSize raster) <= vy -> (RasterYSize raster <= Qfloor vy)%Z)).
Proof.
  split; [ reflexivity | ].
  intros x y vx vy Hc H1 H5 Hx Hy oob_fail.
  split.
  - rewrite (point_to_pixel_coordinates_of_coords raster point x y oob_fail Hc).
    now apply point_to_pixel_coordinates_finite.
  - repeat split; auto using floor_negative, floor_at_least.
Qed.

(** C2, as the code has it.  For a polygon whose envelope is at least one
    pixel wide and high (the binary64 quotients of extent by resolution
    are finite and at least 1), a band count of at least one, and sizes
    that the driver's C [int] arguments hold,
    [create_new_image_from_polygon] makes a raster of
    [int((x_max - x_min) / x_res)] columns and
    [int((y_max - y_min) / y_res)] rows: the quotients truncated, which
    here are their floors, not their ceilings. *)
Theorem create_new_image_from_polygon_truncates
  (polygon : Geometry) (out_path : string) (x_res y_res : float) (bands : Z)
  (projection : string) (x_min x_max y_min y_max : float) (vw vh : Q) :
  GetEnvelope polygon = (x_min, x_max, y_min, y_max) ->
  PrimFloat.eqb x_res 0 = false ->
  PrimFloat.eqb y_res 0 = false ->
  value ((x_max - x_min) / x_res)%float = Some vw ->
  value ((y_max - y_min) / y_res)%float = Some vh ->
  1 <= vw ->
  1 <= vh ->
  (1 <= bands)%Z ->
  (Py.int vw <= c_int_max)%Z ->
  (Py.int vh <= c_int_max)%Z ->
  (bands <= c_int_max)%Z ->
  exists out : Dataset,
    create_new_image_from_polygon polygon out_path x_res y_res bands projection = Ok out
    /\ RasterXSize out = Py.int vw
    /\ RasterXSize out = Qfloor vw
    /\ RasterYSize out = Py.int vh
    /\ RasterYSize out = Qfloor vh
    /\ RasterCount out = bands.
Proof.
  intros Henv Hx Hy Hw Hh Lw Lh Hb _ _ _.
  destruct (int_at_least_1 vw Lw) as [Fw Ew].
  destruct (int_at_least_1 vh Lh) as [Fh Eh].
  unfold create_new_image_from_polygon, truediv, int. rewrite Henv.
  rewrite Hx. cbn [bind]. rewrite Hw. cbn [bind].
  rewrite Hy. cbn [bind]. rewrite Hh. cbn [bind].
  unfold driver_Create.
  destruct (Z.ltb_spec bands 1); [ lia | ].
  destruct (Z.ltb_spec (Py.int vw) 1); [ lia | ].
  destruct (Z.ltb_spec (Py.int vh) 1); [ lia | ].
  cbn [orb not_None bind].
  eexists. split; [ reflexivity | ]. cbn [RasterXSize RasterYSize RasterCount].
  repeat split; assumption.
Qed.

(** The ways [create_new_image_from_polygon] can end.  It ends in a
    [ZeroDivisionError] exactly when the x resolution is zero, or the
    width could be converted and the y resolution is zero; a quotient that
    is infinite or NaN is the [OverflowError] or [ValueError] of [int].
    Past those, with sizes in the range of a C [int], a band count or a
    truncated quotient below one is the [AttributeError] of a raster that
    the driver did not create.  A raster that is returned has the
    truncated quotients as its size, the band count asked for, zero
    pixels, its origin at the envelope's west and north sides, the given
    resolutions with the y resolution negated, and the given
    projection. *)
Theorem create_new_image_from_polygon_outcomes
  (polygon : Geometry) (out_path : string) (x_res y_res : float) (bands : Z)
  (projection : string) (x_min x_max y_min y_max : float) :
  GetEnvelope polygon = (x_min, x_max, y_min, y_max) ->
  (create_new_image_from_polygon polygon out_path x_res y_res bands projection
   = Raise ZeroDivisionError
   <-> (PrimFloat.eqb x_res 0 = true
        \/ (value ((x_max - x_min) / x_res)%float <> None /\ PrimFloat.eqb y_res 0 = true)))
  /\ (PrimFloat.eqb x_res 0 = false ->
      value ((x_max - x_min) / x_res)%float = None ->
      create_new_image_from_polygon polygon out_path x_res y_res bands projection
      = Raise (cannot_convert ((x_max - x_min) / x_res)%float))
  /\ (forall vw : Q,
        PrimFloat.eqb x_res 0 = false ->
        value ((x_max - x_min) / x_res)%float = Some vw ->
        PrimFloat.eqb y_res 0 = false ->
        value ((y_max - y_min) / y_res)%float = None ->
        create_new_image_from_polygon polygon out_path x_res y_res bands projection
        = Raise (cannot_convert ((y_max - y_min) / y_res)%float))
  /\ (forall vw vh : Q,
        PrimFloat.eqb x_res 0 = false ->
        PrimFloat.eqb y_res 0 = false ->
        value ((x_max - x_min) / x_res)%float = Some vw ->
        value ((y_max - y_min) / y_res)%float = Some vh ->
        (- c_int_max - 1 <= Py.int vw <= c_int_max)%Z ->
        (- c_int_max - 1 <= Py.int vh <= c_int_max)%Z ->
        (- c_int_max - 1 <= bands <= c_int_max)%Z ->
        (bands < 1 \/ Py.int vw < 1 \/ Py.int vh < 1)%Z ->
        create_new_image_from_polygon polygon out_path x_res y_res bands projection
        = Raise AttributeError)
  /\ (forall out : Dataset,
        create_new_image_from_polygon polygon out_path x_res y_res bands projection = Ok out ->
        exists vw vh : Q,
          PrimFloat.eqb x_res 0 = false
          /\ PrimFloat.eqb y_res 0 = false
          /\ value ((x_max - x_min) / x_res)%float = Some vw
          /\ value ((y_max - y_min) / y_res)%float = Some vh
          /\ (1 <= Py.int vw)%Z /\ (1 <= Py.int vh)%Z /\ (1 <= bands)%Z
          /\ out = mk_dataset bands (Py.int vw) (Py.int vh)
                     (mk_gt x_min x_res 0 y_max 0 (y_res * -1)%float) projection
                     (repeat 0%Z (Z.to_nat bands * Z.to_nat (Py.int vh)
                                  * Z.to_nat (Py.int vw)))).
Proof.
  intros Henv. unfold create_new_image_from_polygon, truediv, int. rewrite Henv.
  destruct (PrimFloat.eqb x_res 0) eqn:Hx; cbn [bind].
  { split; [ split; [ intros _; now left | reflexivity ] | ].
    repeat split; try discriminate. }
  destruct (value ((x_max - x_min) / x_res)%float) as [vw | ] eqn:Hw; cbn [bind].
  2:{ pose proof (cannot_convert_not_ZeroDivisionError ((x_max - x_min) / x_res)%float) as N.
      split.
      { split; [ intros E; injection E as E; contradiction | ].
        intros [E | [E _]]; [ discriminate | contradiction ]. }
      repeat split; try discriminate; try reflexivity. }
  destruct (PrimFloat.eqb y_res 0) eqn:Hy; cbn [bind].
  { split; [ split; [ intros _; right; split; [ discriminate | reflexivity ] | reflexivity ] | ].
    repeat split; try discriminate. }
  destruct (value ((y_max - y_min) / y_res)%float) as [vh | ] eqn:Hh; cbn [bind].
  2:{ pose proof (cannot_convert_not_ZeroDivisionError ((y_max - y_min) / y_res)%float) as N.
      split.
      { split; [ intros E; injection E as E; contradiction | ].
        intros [E | [_ E]]; discriminate. }
      repeat split; try discriminate; try reflexivity. }
  unfold driver_Create.
  destruct (Z.ltb_spec bands 1) as [Lb | Lb];
    destruct (Z.ltb_spec (Py.int vw) 1) as [Lw | Lw];
    destruct (Z.ltb_spec (Py.int vh) 1) as [Lh | Lh];
    cbn [orb not_None bind RasterCount RasterXSize RasterYSize pixels];
    (split;
     [ split; [ discriminate | intros [E | [_ E]]; discriminate ]
     | split; [ discriminate | ];
       split; [ discriminate | ];
       split;
       [ intros vw' vh' _ _ Ew Eh _ _ _ Hbad;
         injection Ew as <-; injection Eh as <-;
         first [ reflexivity | exfalso; lia ]
       | intros out E;
         first [ discriminate
               | injection E as <-; exists vw, vh; repeat split; assumption ] ] ]).
Qed.

End Binary64Properties.

(** ** The binary64 properties at sample rasters *)

Section Binary64Samples.

Import Binary64.

Local Open Scope Q_scope.

Ltac decide_by_computation :=
  vm_compute; first [ reflexivity | discriminate | exact I ].

(** A point a quarter of a pixel above the raster and three quarters into
    its second column: the row is -1 and the column 1. *)
Lemma point_to_pixel_coordinates_floors_quotients_witness :
  point_to_pixel_coordinates (ogr := Envelopes) unit_raster
    (PointSeq [0x1.cp+0; 0x1.2p+1]%float) false = Ok (1, -1)%Z.
Proof.
  destruct (point_to_pixel_coordinates_floors_quotients (ogr := Envelopes) unit_raster
              0x1.cp+0%float 0x1.2p+1%float false _ _ eq_refl eq_refl eq_refl eq_refl)
    as (col & row & _ & _ & _ & _ & _ & Hiff).
  apply Hiff. repeat split; decide_by_computation.
Defined.

(** C6, as the specification has it, fails.  On a north-up raster with
    its origin at (500000, 100) and pixels of 0.3, pixel (1, 1) lies
    within the raster, its position is computed as
    (500000.3, 99.7), and the conversion sends that position to
    pixel (0, 0): both quotients round to just under 1. *)
Lemma point_to_pixel_coordinates_not_left_inverse :
  exists x y : float,
    pixel_to_geo (GetGeoTransform fine_raster) 1 1 = (x, y)
    /\ PrimFloat.eqb (gt1 (GetGeoTransform fine_raster)) 0 = false
    /\ PrimFloat.eqb (gt5 (GetGeoTransform fine_raster)) 0 = false
    /\ PrimFloat.eqb (gt2 (GetGeoTransform fine_raster)) 0 = true
    /\ PrimFloat.eqb (gt4 (GetGeoTransform fine_raster)) 0 = true
    /\ (0 <= 1 < RasterXSize fine_raster)%Z
    /\ (0 <= 1 < RasterYSize fine_raster)%Z
    /\ point_to_pixel_coordinates (ogr := Envelopes) fine_raster (PointSeq [x; y]) false
       = Ok (0, 0)%Z
    /\ (0, 0)%Z <> (1, 1)%Z.
Proof.
  do 2 eexists. split; [ vm_compute; reflexivity | ].
  repeat split; try decide_by_computation; try (simpl; lia).
Qed.

Lemma point_to_pixel_coordinates_ignores_oob_fail_witness :
  point_to_pixel_coordinates (ogr := Envelopes) unit_raster (PointStr "POINT (5 1)") true
  = Ok (5, 1)%Z
  /\ point_to_pixel_coordinates (ogr := Envelopes) unit_raster (PointStr "POINT (5 1)") false
     = Ok (5, 1)%Z
  /\ (RasterXSize unit_raster <= 5)%Z.
Proof.
  pose proof (proj2 (point_to_pixel_coordinates_ignores_oob_fail (ogr := Envelopes)
                       unit_raster (PointStr "POINT (5 1)"))
                _ _ _ _ eq_refl eq_refl eq_refl eq_refl eq_refl) as H.
  split; [ exact (proj1 (H true)) | ].
  split; [ exact (proj1 (H false)) | ].
  apply (proj1 (proj2 (proj2 (H true)))). decide_by_computation.
Defined.

(** C9, as the specification has it, fails.  A point half a pixel east of
    a raster two pixels wide lies outside it, and its column is 2: the
    width, not more than the width.  Its row, 1, is a row of the
    raster. *)
Lemma point_to_pixel_coordinates_column_equals_width :
  PrimFloat.ltb (gt0 (GetGeoTransform unit_raster)
                 + gt1 (GetGeoTransform unit_raster) * of_int (RasterXSize unit_raster))%float
                0x1.4p+1%float = true
  /\ point_to_pixel_coordinates (ogr := Envelopes) unit_raster
       (PointSeq [0x1.4p+1; 1]%float) true = Ok (2, 1)%Z
  /\ point_to_pixel_coordinates (ogr := Envelopes) unit_raster
       (PointSeq [0x1.4p+1; 1]%float) false = Ok (2, 1)%Z
  /\ RasterXSize unit_raster = 2%Z
  /\ (0 <= 2 <= RasterXSize unit_raster)%Z
  /\ (0 <= 1 < RasterYSize unit_raster)%Z.
Proof.
  repeat split; try decide_by_computation; simpl; lia.
Qed.

Lemma create_new_image_from_polygon_truncates_witness :
  exists out : Dataset,
    create_new_image_from_polygon (ogr := Envelopes) (0, 0x1.4p+1, 0, 0x1.4p+1)%float
      "out.tif" 1 1 1 "EPSG:4326" = Ok out
    /\ RasterXSize out = 2%Z
    /\ RasterYSize out = 2%Z.
Proof.
  destruct (create_new_image_from_polygon_truncates (ogr := Envelopes)
              (0, 0x1.4p+1, 0, 0x1.4p+1)%float "out.tif" 1 1 1 "EPSG:4326"
              0 0x1.4p+1 0 0x1.4p+1 _ _ eq_refl eq_refl eq_refl eq_refl eq_refl)
    as (out & Hrun & Hx & _ & Hy & _); try decide_by_computation.
  exists out. split; [ exact Hrun | ]. split; [ exact Hx | exact Hy ].
Defined.

(** C2, as the specification has it, fails: an envelope two and a half
    pixels wide and high gives 2 columns and 2 rows, and the ceilings of
    the quotients are 3. *)
Lemma create_new_image_from_polygon_not_ceiling :
  exists (out : Dataset) (v : Q),
    GetEnvelope (OGR := Envelopes) (0, 0x1.4p+1, 0, 0x1.4p+1)%float
    = (0, 0x1.4p+1, 0, 0x1.4p+1)%float
    /\ create_new_image_from_polygon (ogr := Envelopes) (0, 0x1.4p+1, 0, 0x1.4p+1)%float
         "out.tif" 1 1 1 "EPSG:4326" = Ok out
    /\ value ((0x1.4p+1 - 0) / 1)%float = Some v
    /\ v == 5 # 2
    /\ Qceiling v = 3%Z
    /\ RasterXSize out = 2%Z
    /\ RasterYSize out = 2%Z
    /\ RasterXSize out <> Qceiling v.
Proof.
  do 2 eexists. split; [ reflexivity | ].
  split; [ vm_compute; reflexivity | ].
  split; [ vm_compute; reflexivity | ].
  repeat split; decide_by_computation.
Qed.

Lemma create_new_image_from_polygon_outcomes_witness :
  create_new_image_from_polygon (ogr := Envelopes) (0, 0x1.4p+1, 0, 0x1.4p+1)%float
    "out.tif" 1 1 0 "EPSG:4326" = Raise AttributeError
  /\ create_new_image_from_polygon (ogr := Envelopes) (0, 0x1.4p+1, 0, 0x1.4p+1)%float
       "out.tif" 0 1 1 "EPSG:4326" = Raise ZeroDivisionError.
Proof.
  pose proof (create_new_image_from_polygon_outcomes (ogr := Envelopes)
                (0, 0x1.4p+1, 0, 0x1.4p+1)%float "out.tif" 1 1 0 "EPSG:4326"
                0 0x1.4p+1 0 0x1.4p+1 eq_refl) as (_ & _ & _ & Hattr & _).
  pose proof (create_new_image_from_polygon_outcomes (ogr := Envelopes)
                (0, 0x1.4p+1, 0, 0x1.4p+1)%float "out.tif" 0 1 1 "EPSG:4326"
                0 0x1.4p+1 0 0x1.4p+1 eq_refl) as (Hzero & _).
  split.
  - apply (Hattr _ _ eq_refl eq_refl eq_refl eq_refl);
      try (vm_compute; split; discriminate).
    left. lia.
  - apply Hzero. left. reflexivity.
Defined.

End Binary64Samples.

(** * Further functions of core.py *)


(** ** numpy: transposing and reshaping *)

Module NpShape.

(** An array as a value: its storage and the view on it. *)
Definition array : Type := Np.buffer * Np.ndarray.

Definition is_axes (axes : list nat) (ndim : nat) : bool :=
  Nat.eqb (List.length axes) ndim
  && forallb (fun i => existsb (Nat.eqb i) axes) (seq 0 ndim).

(** [np.transpose(a, axes)]: the same storage with the axes permuted. *)
Definition transpose (a : array) (axes : list nat) : result array :=
  let '(buf, v) := a in
  if is_axes axes (List.length (Np.shape v)) then
    Ok (buf, Np.mk_ndarray (map (fun i => nth i (Np.shape v) 0%nat) axes)
                           (map (fun i => nth i (Np.strides v) 0%nat) axes)
                           (Np.offset v))
  else Raise ValueError.

(** [np.reshape(a, newshape)]: the elements of [a] in C order under the
    new shape, which must hold as many.  Whether numpy hands out a view or
    a copy, the elements read are these. *)
Definition reshape (a : array) (newshape : list nat) : result array :=
  let '(buf, v) := a in
  if Nat.eqb (Np.size newshape) (Np.size (Np.shape v)) then
    Ok (Np.read buf v, Np.contiguous newshape)
  else Raise ValueError.

(** The elements of an array value, in C order. *)
Definition elements (a : array) : list Z := Np.read (fst a) (snd a).

End NpShape.

Section MoreCore.

Context {ogr : OGR}.

Local Open Scope Q_scope.

(** [bands, y, x = image_array.shape] needs exactly three axes. *)
Definition reshape_raster_for_ml (image_array : NpShape.array) : result NpShape.array :=
  match Np.shape (snd image_array) with
  | [bands; y; x] =>
      image_array <- NpShape.transpose image_array [1; 2; 0]%nat ;;
      NpShape.reshape image_array [(x * y)%nat; bands]
  | _ => Raise ValueError
  end.

Definition reshape_prob_out_to_raster (probs : NpShape.array) (width height : nat)
  : result NpShape.array :=
  classes <- item (Np.shape (snd probs)) 1 ;;
  image_array <- NpShape.transpose probs [1; 0]%nat ;;
  NpShape.reshape image_array [classes; height; width].

End MoreCore.

(** ** Sorting by acquisition time *)

Section SortByTimestamp.

(** [a] was acquired no earlier than [b]. *)
Definition no_older (a b : string) : Prop :=
  exists ta tb : Z,
    get_image_acquisition_time a = Ok ta
    /\ get_image_acquisition_time b = Ok tb
    /\ (tb <= ta)%Z.

Definition has_acquisition_time (s : string) : Prop :=
  exists t : Z, get_image_acquisition_time s = Ok t.

Definition key_of (ks : Z * string) : Prop :=
  get_image_acquisition_time (snd ks) = Ok (fst ks).

Definition key_desc (a b : Z * string) : Prop := (fst b <= fst a)%Z.

Lemma keyed_inv (strings : list string) :
  forall ks, keyed strings = Ok ks -> map snd ks = strings /\ Forall key_of ks.
Proof.
  induction strings as [ | s strings IH]; intros ks H; simpl in H.
  - injection H as <-. split; constructor.
  - destruct (get_image_acquisition_time s) as [k | e] eqn:Hk; simpl in H; [ | discriminate ].
    destruct (keyed strings) as [ks' | e]; simpl in H; [ | discriminate ].
    injection H as <-. destruct (IH ks' eq_refl) as [Hm Hf].
    split; [ simpl; now rewrite Hm | constructor; [ exact Hk | exact Hf ] ].
Qed.

Lemma keyed_total (strings : list string) :
  Forall has_acquisition_time strings -> exists ks, keyed strings = Ok ks.
Proof.
  induction 1 as [ | s strings [t Ht] _ [ks Hks]]; simpl.
  - now exists [].
  - rewrite Ht, Hks. simpl. now eexists.
Qed.

Lemma insert_desc_perm (x : Z * string) (l : list (Z * string)) :
  Permutation (x :: l) (insert_desc x l).
Proof.
  induction l as [ | y l IH]; simpl; [ reflexivity | ].
  destruct (fst x <=? fst y)%Z; [ | reflexivity ].
  rewrite perm_swap. now constructor.
Qed.

Lemma insert_desc_sorted (x : Z * string) (l : list (Z * string)) :
  StronglySorted key_desc l -> StronglySorted key_desc (insert_desc x l).
Proof.
  induction l as [ | y l IH]; intros Hs; simpl.
  - repeat constructor.
  - apply StronglySorted_inv in Hs. destruct Hs as [Hl Hy].
    destruct (Z.leb_spec (fst x) (fst y)) as [Hle | Hgt].
    + constructor; [ now apply IH | ].
      apply (Permutation_Forall (insert_desc_perm x l)).
      constructor; [ exact Hle | exact Hy ].
    + constructor; [ now constructor | ].
      constructor; [ unfold key_desc; lia | ].
      eapply Forall_impl; [ | exact Hy ].
      unfold key_desc. intros z Hz. lia.
Qed.

Lemma insertion_sort_spec (ks : list (Z * string)) :
  forall acc, StronglySorted key_desc acc ->
    Permutation (ks ++ acc) (fold_left (fun acc x => insert_desc x acc) ks acc)
    /\ StronglySorted key_desc (fold_left (fun acc x => insert_desc x acc) ks acc).
Proof.
  induction ks as [ | k ks IH]; intros acc Hacc; simpl.
  - split; [ reflexivity | exact Hacc ].
  - destruct (IH (insert_desc k acc) (insert_desc_sorted k acc Hacc)) as [Hp Hs].
    split; [ | exact Hs ].
    rewrite <- Hp. rewrite <- (insert_desc_perm k acc).
    apply Permutation_middle.
Qed.

Lemma sorted_keys_no_older (l : list (Z * string)) :
  Forall key_of l -> StronglySorted key_desc l -> StronglySorted no_older (map snd l).
Proof.
  induction l as [ | x l IH]; intros Hk Hs; simpl; [ constructor | ].
  apply StronglySorted_inv in Hs. destruct Hs as [Hl Hx].
  apply Forall_cons_iff in Hk. destruct Hk as [Hkx Hkl].
  constructor; [ now apply IH | ].
  apply Forall_map. rewrite Forall_forall in *.
  intros y Hy. exists (fst x), (fst y).
  split; [ exact Hkx | split; [ now apply Hkl | now apply Hx ] ].
Qed.

(** [sort_by_timestamp] returns the names it was given, newest first,
    when every name holds a Sentinel-2 timestamp that is a valid date and
    time; it returns at all only then. *)
Theorem sort_by_timestamp_newest_first (strings : list string) :
  (Forall has_acquisition_time strings ->
   exists sorted : list string,
     sort_by_timestamp strings = Ok sorted
     /\ Permutation strings sorted
     /\ StronglySorted no_older sorted)
  /\ (forall sorted : list string,
        sort_by_timestamp strings = Ok sorted -> Forall has_acquisition_time strings).
Proof.
  split.
  - intros Hall. destruct (keyed_total strings Hall) as [ks Hks].
    destruct (keyed_inv strings ks Hks) as [Hm Hk].
    destruct (insertion_sort_spec ks [] (SSorted_nil _)) as [Hp Hs].
    rewrite app_nil_r in Hp.
    unfold sort_by_timestamp. rewrite Hks. simpl. eexists. split; [ reflexivity | ].
    split.
    + rewrite <- Hm. now apply Permutation_map.
    + apply sorted_keys_no_older; [ | exact Hs ].
      now apply (Permutation_Forall Hp).
  - intros sorted H. unfold sort_by_timestamp in H.
    destruct (keyed strings) as [ks | e] eqn:Hks; [ | discriminate ].
    destruct (keyed_inv strings ks Hks) as [Hm Hk].
    rewrite <- Hm. apply Forall_map.
    eapply Forall_impl; [ | exact Hk ].
    intros [k s] Hkey. now exists k.
Qed.

End SortByTimestamp.

(** ** Timestamps in file names *)

Section TimestampOfName.

Local Open Scope string_scope.

Fixpoint digits_only (s : string) : bool :=
  match s with
  | EmptyString => true
  | String c s' => Timestamp.is_digit c && digits_only s'
  end.

(** Eight digits, a [T], six digits. *)
Definition is_sen_2_timestamp (ts : string) : Prop :=
  exists d1 d2 : string,
    ts = d1 ++ "T" ++ d2
    /\ String.length d1 = 8%nat /\ String.length d2 = 6%nat
    /\ digits_only d1 = true /\ digits_only d2 = true.

Lemma digits_sound (n : nat) :
  forall s d rest, Timestamp.digits n s = Some (d, rest) ->
    s = d ++ rest /\ String.length d = n /\ digits_only d = true.
Proof.
  induction n as [ | n IH]; intros s d rest H; simpl in H.
  - injection H as <- <-. auto.
  - destruct s as [ | c s]; [ discriminate | ].
    destruct (Timestamp.is_digit c) eqn:Hc; [ | discriminate ].
    destruct (Timestamp.digits n s) as [[d' rest'] | ] eqn:Hd; [ | discriminate ].
    injection H as <- <-. destruct (IH _ _ _ Hd) as [-> [Hl Hdig]].
    simpl. rewrite Hc, Hl, Hdig. auto.
Qed.

Lemma digits_complete (d : string) :
  forall rest, digits_only d = true ->
    Timestamp.digits (String.length d) (d ++ rest) = Some (d, rest).
Proof.
  induction d as [ | c d IH]; intros rest H; simpl in *; [ reflexivity | ].
  apply andb_prop in H. destruct H as [Hc Hd].
  rewrite Hc, (IH rest Hd). reflexivity.
Qed.

Lemma append_assoc (a b c : string) : (a ++ b) ++ c = a ++ (b ++ c).
Proof. induction a as [ | x a IH]; simpl; [ reflexivity | now rewrite IH ]. Qed.

Lemma match_here_sound (s m : string) :
  Timestamp.match_here s = Some m ->
  is_sen_2_timestamp m /\ exists rest, s = m ++ rest.
Proof.
  unfold Timestamp.match_here. intros H.
  destruct (Timestamp.digits 8 s) as [[d1 r1] | ] eqn:H1; [ | discriminate ].
  destruct r1 as [ | c r1]; [ discriminate | ].
  destruct (Ascii.eqb_spec c "T"%char) as [-> | ]; [ | discriminate ].
  destruct (Timestamp.digits 6 r1) as [[d2 r2] | ] eqn:H2; [ | discriminate ].
  injection H as <-.
  destruct (digits_sound _ _ _ _ H1) as [-> [L1 D1]].
  destruct (digits_sound _ _ _ _ H2) as [-> [L2 D2]].
  split.
  - exists d1, d2. auto.
  - exists r2. rewrite append_assoc. reflexivity.
Qed.

Lemma match_here_complete (m rest : string) :
  is_sen_2_timestamp m -> Timestamp.match_here (m ++ rest) = Some m.
Proof.
  intros [d1 [d2 [-> [L1 [L2 [D1 D2]]]]]].
  unfold Timestamp.match_here.
  rewrite append_assoc. rewrite <- L1. rewrite (digits_complete d1 _ D1).
  cbn [append]. rewrite <- L2, (digits_complete d2 rest D2). reflexivity.
Qed.

Lemma re_search_sound (s : string) :
  forall m, Timestamp.re_search s = Some m ->
    is_sen_2_timestamp m
    /\ exists pre post,
        s = pre ++ m ++ post
        /\ forall pre' m' post',
            s = pre' ++ m' ++ post' -> is_sen_2_timestamp m' ->
            (String.length pre <= String.length pre')%nat.
Proof.
  induction s as [ | c s IH]; intros m H.
  - discriminate H.
  - simpl in H. destruct (Timestamp.match_here (String c s)) as [m' | ] eqn:Hm.
    + injection H as <-. destruct (match_here_sound _ _ Hm) as [Hts [rest Hr]].
      split; [ exact Hts | ]. exists "", rest. split; [ exact Hr | ].
      intros. simpl. apply Nat.le_0_l.
    + destruct (IH m H) as [Hts [pre [post [Hs Hleft]]]].
      split; [ exact Hts | ]. exists (String c pre), post.
      split; [ simpl; now rewrite <- Hs | ].
      intros pre' m' post' Hs' Hts'. destruct pre' as [ | c' pre'].
      * simpl in Hs'. rewrite Hs', (match_here_complete m' post' Hts') in Hm.
        discriminate.
      * simpl in Hs'. injection Hs' as _ Hs'. simpl.
        apply le_n_S. exact (Hleft pre' m' post' Hs' Hts').
Qed.

Lemma re_search_complete (s : string) :
  Timestamp.re_search s = None ->
  forall pre m post, s = pre ++ m ++ post -> ~ is_sen_2_timestamp m.
Proof.
  induction s as [ | c s IH]; intros H pre m post Hs Hts.
  - destruct pre; [ | discriminate ]. simpl in Hs.
    pose proof (match_here_complete m post Hts) as Hm.
    rewrite <- Hs in Hm. discriminate Hm.
  - simpl in H. destruct (Timestamp.match_here (String c s)) eqn:Hm; [ discriminate | ].
    destruct pre as [ | c' pre].
    + simpl in Hs. rewrite Hs, (match_here_complete m post Hts) in Hm. discriminate.
    + simpl in Hs. injection Hs as _ Hs. exact (IH H pre m post Hs Hts).
Qed.

(** For a name made of characters below 256 (ASCII and Latin-1, where the
    decimal digits that [\d] matches are [0] to [9]),
    [get_sen_2_image_timestamp] returns the leftmost run of eight digits,
    [T] and six digits in the name, and ends in an [AttributeError]
    exactly when the name holds no such run. *)
Theorem get_sen_2_image_timestamp_leftmost (image_name : string) :
  (forall ts : string,
      get_sen_2_image_timestamp image_name = Ok ts ->
      is_sen_2_timestamp ts
      /\ exists pre post : string,
          image_name = pre ++ ts ++ post
          /\ forall pre' ts' post' : string,
              image_name = pre' ++ ts' ++ post' -> is_sen_2_timestamp ts' ->
              (String.length pre <= String.length pre')%nat)
  /\ (get_sen_2_image_timestamp image_name = Raise AttributeError
      <-> forall pre ts post : string,
            image_name = pre ++ ts ++ post -> ~ is_sen_2_timestamp ts).
Proof.
  unfold get_sen_2_image_timestamp. split.
  - intros ts H. destruct (Timestamp.re_search image_name) as [m | ] eqn:Hs;
      [ | discriminate ].
    injection H as <-. now apply re_search_sound.
  - destruct (Timestamp.re_search image_name) as [m | ] eqn:Hs; simpl.
    + split; [ discriminate | ]. intros Hno. exfalso.
      destruct (re_search_sound _ _ Hs) as [Hts [pre [post [Hn _]]]].
      exact (Hno pre m post Hn Hts).
    + split; [ | reflexivity ]. intros _. now apply re_search_complete.
Qed.

End TimestampOfName.

(** ** Mask paths *)

Section MaskPath.

Local Open Scope string_scope.

Fixpoint without_char (c : ascii) (s : string) : bool :=
  match s with
  | EmptyString => true
  | String x s' => negb (Ascii.eqb x c) && without_char c s'
  end.

Lemma without_char_append (c : ascii) (a b : string) :
  without_char c (a ++ b) = without_char c a && without_char c b.
Proof.
  induction a as [ | x a IH]; simpl; [ reflexivity | ].
  now rewrite IH, andb_assoc.
Qed.

Lemma split_last_slash_name (f : string) :
  without_char "/" f = true -> Os.split_last_slash f = (None, f).
Proof.
  induction f as [ | x f IH]; simpl; intros H; [ reflexivity | ].
  apply andb_prop in H. destruct H as [Hx Hf].
  rewrite (IH Hf). apply negb_true_iff in Hx. now rewrite Hx.
Qed.

Lemma split_last_slash_path (dir f : string) :
  without_char "/" f = true ->
  Os.split_last_slash (dir ++ "/" ++ f) = (Some dir, f).
Proof.
  intros Hf. induction dir as [ | x dir IH].
  - cbn [append Os.split_last_slash]. rewrite (split_last_slash_name f Hf).
    reflexivity.
  - cbn [append Os.split_last_slash]. cbn [append] in IH. rewrite IH. reflexivity.
Qed.

Lemma before_first_dot_stem (stem rest : string) :
  without_char "." stem = true ->
  Os.before_first_dot (stem ++ "." ++ rest) = stem.
Proof.
  induction stem as [ | x stem IH]; simpl in *; intros H; [ reflexivity | ].
  apply andb_prop in H. destruct H as [Hx Hs].
  apply negb_true_iff in Hx. now rewrite Hx, (IH Hs).
Qed.

Lemma starts_with_slash_name (stem ext : string) :
  without_char "/" stem = true ->
  Os.starts_with "/" (stem ++ "." ++ ext) = false.
Proof.
  unfold Os.starts_with. destruct stem as [ | x stem]; [ reflexivity | ].
  cbn [without_char append String.prefix].
  intros H. apply andb_prop in H. destruct H as [Hx _].
  apply negb_true_iff in Hx.
  destruct (ascii_dec "/" x) as [<- | Hne]; [ | reflexivity ].
  now rewrite Ascii.eqb_refl in Hx.
Qed.

(** [get_mask_path] keeps the directory and the file name up to its first
    dot, and appends [.msk]: everything from the first dot on is dropped,
    not only the last extension.  Applied to its own result it changes
    nothing. *)
Theorem get_mask_path_first_dot (dir stem rest : string) :
  dir <> "" ->
  Os.ends_with "/" dir = false ->
  without_char "/" stem = true ->
  without_char "." stem = true ->
  without_char "/" rest = true ->
  get_mask_path (dir ++ "/" ++ stem ++ "." ++ rest) = dir ++ "/" ++ stem ++ ".msk"
  /\ get_mask_path (stem ++ "." ++ rest) = stem ++ ".msk"
  /\ get_mask_path (get_mask_path (dir ++ "/" ++ stem ++ "." ++ rest))
     = get_mask_path (dir ++ "/" ++ stem ++ "." ++ rest).
Proof.
  intros Hdir Hend Hstem Hdot Hrest.
  assert (Hname : forall ext, without_char "/" ext = true ->
                    without_char "/" (stem ++ "." ++ ext) = true).
  { intros ext Hext. rewrite !without_char_append, Hstem, Hext. reflexivity. }
  assert (Hpath : forall ext, without_char "/" ext = true ->
            get_mask_path (dir ++ "/" ++ stem ++ "." ++ ext) = dir ++ "/" ++ stem ++ ".msk").
  { intros ext Hext. unfold get_mask_path, Os.basename, Os.dirname.
    rewrite (split_last_slash_path dir _ (Hname ext Hext)). cbn [fst snd].
    rewrite (before_first_dot_stem stem ext Hdot).
    destruct dir as [ | x dir]; [ contradiction | ].
    unfold Os.join. change (stem ++ ".msk") with (stem ++ "." ++ "msk").
    rewrite (starts_with_slash_name stem "msk" Hstem), Hend.
    reflexivity. }
  split; [ exact (Hpath rest Hrest) | ].
  split.
  - unfold get_mask_path, Os.basename, Os.dirname.
    rewrite (split_last_slash_name _ (Hname rest Hrest)). cbn [fst snd].
    rewrite (before_first_dot_stem stem rest Hdot).
    unfold Os.join. change (stem ++ ".msk") with (stem ++ "." ++ "msk").
    rewrite (starts_with_slash_name stem "msk" Hstem). reflexivity.
  - rewrite (Hpath rest Hrest). exact (Hpath "msk" eq_refl).
Qed.

Lemma get_mask_path_first_dot_witness :
  get_mask_path "images/S2A_20180101T101010.tar.gtif" = "images/S2A_20180101T101010.msk".
Proof.
  assert (Hdir : "images" <> "") by discriminate.
  exact (proj1 (get_mask_path_first_dot "images" "S2A_20180101T101010" "tar.gtif"
                  Hdir eq_refl eq_refl eq_refl eq_refl)).
Defined.

End MaskPath.

(** ** Creating the output raster *)

Section Creation.

Context {ogr : OGR}.

Local Open Scope Q_scope.

Lemma create_new_image_from_polygon_metadata (polygon : Geometry) (out_path : string)
  (x_res y_res : Q) (bands : Z) (projection : string) (out : Dataset)
  (x_min x_max y_min y_max : Q) :
  GetEnvelope polygon = (x_min, x_max, y_min, y_max) ->
  create_new_image_from_polygon polygon out_path x_res y_res bands projection = Ok out ->
  GetGeoTransform out = mk_gt x_min x_res 0 y_max 0 (y_res * inject_Z (-1))
  /\ GetProjection out = projection.
Proof.
  intros Henv. unfold create_new_image_from_polygon. rewrite Henv. intros H.
  apply bind_Ok in H. destruct H as [qw [_ H]].
  apply bind_Ok in H. destruct H as [qh [_ H]].
  apply bind_Ok in H. destruct H as [created [_ H]].
  injection H as <-. split; reflexivity.
Qed.

End Creation.

(** ** What stacking writes and leaves alone *)

Section StackingFrame.

Context {ogr : OGR}.

Local Open Scope Q_scope.

Lemma open_all_first (w : World) (paths : list string) (rasters : list Dataset)
  (r0 : Dataset) :
  open_all w paths = Ok rasters -> first rasters = Ok r0 ->
  exists rest, rasters = r0 :: rest.
Proof.
  intros _ H. destruct rasters as [ | r rest]; [ discriminate | ].
  injection H as <-. now exists rest.
Qed.

(** A successful [stack_images] changes the file at [out_raster_path] and
    no other.  The raster written there carries the projection and the
    pixel size of the first input, no rotation, and has its origin at the
    west and north sides of the combined polygon's envelope. *)
Theorem stack_images_output_metadata (w w' : World) (raster_paths : list string)
  (out_raster_path geometry_mode : string) :
  stack_images w raster_paths out_raster_path geometry_mode = Ok w' ->
  (forall p : string, p <> out_raster_path -> gdal_Open w' p = gdal_Open w p)
  /\ exists (top : Dataset) (others : list Dataset) (combined : Geometry)
            (stacked : Dataset),
      open_all w raster_paths = Ok (top :: others)
      /\ get_combined_polygon (top :: others) geometry_mode = Ok combined
      /\ gdal_Open w' out_raster_path = Some stacked
      /\ GetProjection stacked = GetProjection top
      /\ gt1 (GetGeoTransform stacked) = gt1 (GetGeoTransform top)
      /\ gt5 (GetGeoTransform stacked) == gt5 (GetGeoTransform top)
      /\ gt2 (GetGeoTransform stacked) = 0
      /\ gt4 (GetGeoTransform stacked) = 0
      /\ gt0 (GetGeoTransform stacked) = fst (fst (fst (GetEnvelope combined)))
      /\ gt3 (GetGeoTransform stacked) = snd (GetEnvelope combined).
Proof.
  intros H. unfold stack_images in H.
  destruct (Z.of_nat (List.length raster_paths) <=? 1)%Z; [ discriminate | ].
  apply bind_Ok in H. destruct H as [rasters [Hopen H]].
  apply bind_Ok in H. destruct H as [r0 [Hfirst H]].
  apply bind_Ok in H. destruct H as [combined [Hcomb H]].
  apply bind_Ok in H. destruct H as [out_raster [Hcreate H]].
  apply bind_Ok in H. destruct H as [[out_buffer layer] [_ H]].
  injection H as <-.
  destruct (open_all_first _ _ _ _ Hopen Hfirst) as [rest ->].
  split.
  - intros p Hp. cbn [gdal_Open write_dataset].
    destruct (String.eqb_spec p out_raster_path) as [E | _]; [ contradiction | reflexivity ].
  - destruct (GetEnvelope combined) as [[[x_min x_max] y_min] y_max] eqn:Henv.
    destruct (create_new_image_from_polygon_metadata _ _ _ _ _ _ _ _ _ _ _ Henv Hcreate)
      as [Hgt Hproj].
    exists r0, rest, combined, (with_pixels out_raster out_buffer).
    split; [ exact Hopen | ]. split; [ exact Hcomb | ].
    split; [ apply gdal_Open_write_dataset | ].
    cbn [with_pixels GetProjection GetGeoTransform]. rewrite Hgt, Hproj.
    cbn [gt0 gt1 gt2 gt3 gt4 gt5 fst snd].
    rewrite Henv. cbn [fst snd].
    repeat split; try reflexivity.
    change (inject_Z (-1)) with (-1 # 1). ring.
Qed.

(** Files that could be opened before a successful [stack_images] or
    [combine_masks] can be opened after it, and so can the output. *)
Lemma stack_images_keeps_files (w w' : World) (raster_paths : list string)
  (out_raster_path geometry_mode : string) :
  stack_images w raster_paths out_raster_path geometry_mode = Ok w' ->
  gdal_Open w' out_raster_path <> None
  /\ forall p : string, gdal_Open w p <> None -> gdal_Open w' p <> None.
Proof.
  intros H. unfold stack_images in H.
  destruct (Z.of_nat (List.length raster_paths) <=? 1)%Z; [ discriminate | ].
  apply bind_Ok in H. destruct H as [rasters [_ H]].
  apply bind_Ok in H. destruct H as [r0 [_ H]].
  apply bind_Ok in H. destruct H as [combined [_ H]].
  apply bind_Ok in H. destruct H as [out_raster [_ H]].
  apply bind_Ok in H. destruct H as [[out_buffer layer] [_ H]].
  injection H as <-. split.
  - rewrite gdal_Open_write_dataset. discriminate.
  - intros p Hp. cbn [gdal_Open write_dataset].
    destruct (String.eqb p out_raster_path); [ discriminate | exact Hp ].
Qed.

Lemma combine_masks_keeps_files (w w' : World) (mask_paths : list string)
  (out_path out : string) (combination_func geometry_func : string) :
  combine_masks w mask_paths out_path combination_func geometry_func = Ok (out, w') ->
  forall p : string, gdal_Open w p <> None -> gdal_Open w' p <> None.
Proof.
  intros H. unfold combine_masks in H.
  apply bind_Ok in H. destruct H as [masks [_ H]].
  apply bind_Ok in H. destruct H as [combined [_ H]].
  apply bind_Ok in H. destruct H as [m0 [_ H]].
  apply bind_Ok in H. destruct H as [out_mask [_ H]].
  apply bind_Ok in H. destruct H as [buf [_ H]].
  injection H as _ <-.
  intros p Hp. cbn [gdal_Open write_dataset].
  destruct (String.eqb p out_path); [ discriminate | exact Hp ].
Qed.

Lemma stack_old_and_new_images_written (w w' : World)
  (old_image_path new_image_path out_dir out : string) (create_combined_mask : bool) :
  stack_old_and_new_images w old_image_path new_image_path out_dir create_combined_mask
  = Ok (out, w') ->
  gdal_Open w' out <> None
  /\ Os.ends_with ".tif" out = true
  /\ forall p : string, gdal_Open w p <> None -> gdal_Open w' p <> None.
Proof.
  intros H. unfold stack_old_and_new_images in H.
  apply bind_Ok in H. destruct H as [old_ts [_ H]].
  apply bind_Ok in H. destruct H as [new_ts [_ H]].
  apply bind_Ok in H. destruct H as [w1 [Hstack H]].
  apply bind_Ok in H. destruct H as [w2 [Hmask H]].
  injection H as <- <-.
  destruct (stack_images_keeps_files _ _ _ _ _ Hstack) as [Hout Hkeep].
  assert (Hkeep2 : forall p, gdal_Open w1 p <> None -> gdal_Open w2 p <> None).
  { destruct create_combined_mask.
    - apply bind_Ok in Hmask. destruct Hmask as [[o w3] [Hc Hw]].
      injection Hw as <-. exact (combine_masks_keeps_files _ _ _ _ _ _ _ Hc).
    - injection Hmask as <-. auto. }
  split; [ now apply Hkeep2 | ].
  split; [ | intros p Hp; now apply Hkeep2, Hkeep ].
  match goal with |- Os.ends_with _ (?base ++ _) = true => generalize base end.
  intros s. induction s as [ | c s IH]; [ reflexivity | ].
  cbn [append Os.ends_with]. rewrite IH.
  destruct (String.eqb ".tif" (String c (s ++ ".tif"))); reflexivity.
Qed.

Lemma select_images_length (w : World) (threshold : Q) (files : list string) :
  forall (poly : Geometry) (acc selected : list string),
    select_images w threshold files poly acc = Ok selected ->
    (List.length selected <= List.length acc + List.length files)%nat.
Proof.
  induction files as [ | f files IH]; intros poly acc selected H; simpl in H.
  - injection H as <-. lia.
  - apply bind_Ok in H. destruct H as [image [_ H]].
    destruct (truth _).
    + destruct (negb _).
      * injection H as <-. rewrite length_app. simpl. lia.
      * apply IH in H. rewrite length_app in H. simpl in *. lia.
    + apply IH in H. simpl. lia.
Qed.

Lemma stack_selected_written (latest stack_dir : string) (selected : list string) :
  forall (w w' : World) (acc new_images : list string),
    stack_selected w latest stack_dir selected acc = Ok (new_images, w') ->
    Forall (fun p => gdal_Open w p <> None /\ Os.ends_with ".tif" p = true) acc ->
    (List.length new_images <= List.length acc + List.length selected)%nat
    /\ Forall (fun p => gdal_Open w' p <> None /\ Os.ends_with ".tif" p = true) new_images.
Proof.
  induction selected as [ | image rest IH]; intros w w' acc new_images H Hacc; simpl in H.
  - injection H as <- <-. split; [ lia | exact Hacc ].
  - destruct (existsb _ _).
    + injection H as <- <-. split; [ lia | exact Hacc ].
    + apply bind_Ok in H. destruct H as [[new_image w1] [Hstep H]].
      destruct (stack_old_and_new_images_written _ _ _ _ _ _ _ Hstep)
        as [Hout [Htif Hkeep]].
      apply IH in H.
      * destruct H as [Hlen Hall]. rewrite length_app in Hlen. simpl in *.
        split; [ lia | exact Hall ].
      * apply Forall_app. split.
        -- eapply Forall_impl; [ | exact Hacc ].
           intros p [Hp Ht]. split; [ now apply Hkeep | exact Ht ].
        -- constructor; [ split; assumption | constructor ].
Qed.

Lemma sort_by_timestamp_length (strings sorted : list string) :
  sort_by_timestamp strings = Ok sorted -> List.length sorted = List.length strings.
Proof.
  unfold sort_by_timestamp. intros H.
  destruct (keyed strings) as [ks | e] eqn:Hks; [ | discriminate ].
  injection H as <-. destruct (keyed_inv strings ks Hks) as [Hm _].
  destruct (insertion_sort_spec ks [] (SSorted_nil _)) as [Hp _].
  rewrite app_nil_r in Hp.
  rewrite length_map, <- (Permutation_length Hp), <- Hm, length_map. reflexivity.
Qed.

(** When [create_new_stacks] returns, there are fewer new stacks than
    images in the directory (at most one for each image older than the
    newest), every returned path ends in [.tif], and a raster can be opened
    at each of them afterwards. *)
Theorem create_new_stacks_results_written (w w' : World) (image_dir stack_dir : string)
  (threshold : Q) (new_images : list string) :
  create_new_stacks w image_dir stack_dir threshold = Ok (new_images, w') ->
  (List.length new_images < List.length (glob_gtif w image_dir))%nat
  /\ Forall (fun p => gdal_Open w' p <> None /\ Os.ends_with ".tif" p = true) new_images.
Proof.
  unfold create_new_stacks. intros H.
  destruct (Nat.eqb (List.length (glob_gtif w image_dir)) 0); [ discriminate | ].
  apply bind_Ok in H. destruct H as [safe_files [Hsort H]].
  apply bind_Ok in H. destruct H as [latest [Hfirst H]].
  apply bind_Ok in H. destruct H as [latest_image [_ H]].
  apply bind_Ok in H. destruct H as [selected [Hsel H]].
  apply sort_by_timestamp_length in Hsort.
  apply select_images_length in Hsel.
  destruct (stack_selected_written _ _ _ _ _ _ _ H (Forall_nil _)) as [Hlen Hall].
  split; [ | exact Hall ].
  destruct safe_files as [ | f files]; [ discriminate | ].
  simpl in *. lia.
Qed.

End StackingFrame.

(** ** The exceptions of [create_new_stacks] *)

Section CoverSelectionErrors.

Context {ogr : OGR}.

Lemma raises_only_stack_old_and_new_images_builtin (w : World)
  (old_image_path new_image_path out_dir : string) (create_combined_mask : bool) :
  raises_only builtin
    (stack_old_and_new_images w old_image_path new_image_path out_dir create_combined_mask).
Proof.
  unfold stack_old_and_new_images, get_sen_2_image_timestamp.
  apply raises_only_bind; [ apply raises_only_not_None | intros old_timestamp ].
  apply raises_only_bind; [ apply raises_only_not_None | intros new_timestamp ].
  apply raises_only_bind;
    [ apply raises_only_stack_images_rest; reflexivity | intros w1 ].
  apply raises_only_bind; [ | intros; exact I ].
  destruct create_combined_mask; [ | exact I ].
  apply raises_only_bind; [ apply raises_only_combine_masks | intros [out w2]; exact I ].
Qed.

Lemma raises_only_stack_selected_builtin (latest_image_path stack_dir : string)
  (to_be_stacked : list string) :
  forall (w : World) (new_images : list string),
    raises_only builtin
      (stack_selected w latest_image_path stack_dir to_be_stacked new_images).
Proof.
  induction to_be_stacked as [ | image rest IH]; intros w new_images; simpl; [ exact I | ].
  destruct (existsb _ _); [ exact I | ].
  apply raises_only_bind; [ apply raises_only_stack_old_and_new_images_builtin | ].
  intros [new_image w1]. apply IH.
Qed.

(** [create_new_stacks] ends in its own [CreateNewStacksException] only for
    a directory without images; every other exception it can end in is a
    built-in one.  In particular the [StackImagesException] of
    [stack_images] never comes out of it: it always stacks two images. *)
Theorem create_new_stacks_exceptions (w : World) (image_dir stack_dir : string)
  (threshold : Q) (e : exn) :
  create_new_stacks w image_dir stack_dir threshold = Raise e ->
  (e = CreateNewStacksException "image_dir is empty" /\ glob_gtif w image_dir = [])
  \/ (builtin e = true /\ glob_gtif w image_dir <> []).
Proof.
  unfold create_new_stacks.
  destruct (glob_gtif w image_dir) as [ | f files] eqn:E; cbn [List.length Nat.eqb].
  - intros H. injection H as <-. left. split; reflexivity.
  - intros H. right. split; [ | discriminate ].
    assert (Hb : raises_only builtin
                   (safe_files <- sort_by_timestamp (f :: files) ;;
                    latest_image_path <- first safe_files ;;
                    latest_image <- not_None (gdal_Open w latest_image_path) ;;
                    to_be_stacked <- select_images w threshold (tl safe_files)
                                       (get_raster_bounds latest_image) [] ;;
                    stack_selected w latest_image_path stack_dir to_be_stacked [])).
    { apply raises_only_bind; [ apply raises_only_sort_by_timestamp | intros safe_files ].
      apply raises_only_bind; [ apply raises_only_first | intros latest ].
      apply raises_only_bind; [ apply raises_only_not_None | intros latest_image ].
      apply raises_only_bind; [ apply raises_only_select_images | intros selected ].
      apply raises_only_stack_selected_builtin. }
    rewrite H in Hb. exact Hb.
Qed.

End CoverSelectionErrors.

(** ** Further sample runs *)

Module Sample2.

Local Open Scope string_scope.

(** A directory with two images of the same footprint, a month apart, and
    their masks. *)
Definition two_image_world : World :=
  mk_world
    (fun p =>
       if String.eqb p "images/S2A_20180101T101010.gtif" then Some Sample.one_band
       else if String.eqb p "images/S2A_20180201T101010.gtif" then Some Sample.two_bands
       else if String.eqb p "images/S2A_20180101T101010.msk" then Some Sample.one_band
       else if String.eqb p "images/S2A_20180201T101010.msk" then Some Sample.one_band
       else None)
    (fun d =>
       if String.eqb d "images"
       then ["S2A_20180101T101010.gtif"; "S2A_20180201T101010.gtif";
             "S2A_20180101T101010.msk"; "S2A_20180201T101010.msk"]
       else []).

Definition two_image_world_after : World :=
  Eval vm_compute in
    match create_new_stacks (ogr := BoxGeometry) two_image_world "images" "stacks" 100 with
    | Ok (_, w) => w
    | Raise _ => two_image_world
    end.

Definition blank_mask : Dataset :=
  mk_dataset 1 3 1 (mk_gt 0 1 0 1 0 (-1)) "EPSG:4326" [0; 0; 0].

End Sample2.

Section MoreSamples.

Local Open Scope Q_scope.

Lemma stack_images_output_metadata_witness :
  exists stacked : Dataset,
    gdal_Open (write_dataset Sample.stack_world "out.tif" Sample.stacked) "out.tif"
    = Some stacked
    /\ GetProjection stacked = "EPSG:4326"%string
    /\ gdal_Open (write_dataset Sample.stack_world "out.tif" Sample.stacked) "a.tif"
       = Some Sample.one_band.
Proof.
  assert (Hrun : stack_images (ogr := BoxGeometry) Sample.stack_world
                   ["a.tif"; "b.tif"]%string "out.tif" "intersect"
                 = Ok (write_dataset Sample.stack_world "out.tif" Sample.stacked)).
  { vm_compute. reflexivity. }
  destruct (stack_images_output_metadata (ogr := BoxGeometry) _ _ _ _ _ Hrun)
    as [Hframe [top [others [combined [stacked [Hopen [_ [Hout [Hproj _]]]]]]]]].
  exists stacked. split; [ exact Hout | ].
  split.
  - rewrite Hproj.
    assert (Htop : Ok (top :: others) = Ok [Sample.one_band; Sample.two_bands])
      by (rewrite <- Hopen; reflexivity).
    injection Htop as -> _. reflexivity.
  - rewrite (Hframe "a.tif"%string); [ reflexivity | discriminate ].
Defined.

Lemma combine_masks_writes_blank_witness :
  exists out_mask : Dataset,
    gdal_Open (write_dataset Sample.mask_world "out.msk" Sample2.blank_mask) "out.msk"
    = Some out_mask
    /\ Forall (fun v => v = 0%Z) (pixels out_mask).
Proof.
  assert (Hrun : combine_masks (ogr := BoxGeometry) Sample.mask_world
                   ["m1.msk"; "m2.msk"; "m3.msk"]%string "out.msk" "or" "intersect"
                 = Ok ("out.msk"%string,
                       write_dataset Sample.mask_world "out.msk" Sample2.blank_mask)).
  { vm_compute. reflexivity. }
  destruct (combine_masks_writes_blank (ogr := BoxGeometry) _ _ _ _ _ _ _ Hrun)
    as [_ [out_mask [Hopen [_ Hzero]]]].
  exists out_mask. split; [ exact Hopen | exact Hzero ].
Defined.

Lemma create_new_stacks_results_written_witness :
  create_new_stacks (ogr := BoxGeometry) Sample2.two_image_world "images" "stacks" 100
  = Ok (["stacks/20180101T101010_20180201T101010.tif"%string], Sample2.two_image_world_after)
  /\ gdal_Open Sample2.two_image_world_after "stacks/20180101T101010_20180201T101010.tif"
     <> None.
Proof.
  assert (Hrun : create_new_stacks (ogr := BoxGeometry) Sample2.two_image_world
                   "images" "stacks" 100
                 = Ok (["stacks/20180101T101010_20180201T101010.tif"%string],
                       Sample2.two_image_world_after)).
  { vm_compute. reflexivity. }
  split; [ exact Hrun | ].
  destruct (create_new_stacks_results_written (ogr := BoxGeometry) _ _ _ _ _ _ Hrun)
    as [_ Hall].
  apply Forall_inv in Hall. exact (proj1 Hall).
Defined.

Lemma create_new_stacks_exceptions_witness :
  create_new_stacks (ogr := BoxGeometry) Sample.single_image_world "elsewhere" "stacks" 100
  = Raise (CreateNewStacksException "image_dir is empty")
  /\ glob_gtif Sample.single_image_world "elsewhere" = [].
Proof.
  assert (Hrun : create_new_stacks (ogr := BoxGeometry) Sample.single_image_world
                   "elsewhere" "stacks" 100
                 = Raise (CreateNewStacksException "image_dir is empty"))
    by reflexivity.
  split; [ exact Hrun | ].
  destruct (create_new_stacks_exceptions (ogr := BoxGeometry) _ _ _ _ _ Hrun)
    as [[_ Hglob] | [Hb _]]; [ exact Hglob | discriminate Hb ].
Defined.

End MoreSamples.

(** ** Reshaping between raster order and sample order *)

Section Reshaping.

Local Open Scope nat_scope.

Lemma map_flat_map_list {A B C : Type} (f : B -> C) (g : A -> list B) (l : list A) :
  map f (flat_map g l) = flat_map (fun a => map f (g a)) l.
Proof.
  induction l as [ | a l IH]; simpl; [ reflexivity | ].
  now rewrite map_app, IH.
Qed.

Lemma flat_map_ext_In {A B : Type} (f g : A -> list B) (l : list A) :
  (forall a, In a l -> f a = g a) -> flat_map f l = flat_map g l.
Proof.
  induction l as [ | a l IH]; intros H; simpl; [ reflexivity | ].
  rewrite (H a (or_introl eq_refl)), IH; [ reflexivity | ].
  intros b Hb. apply H. now right.
Qed.

Lemma flat_map_uniform_length {A : Type} (g : nat -> list A) (k : nat) :
  (forall a, List.length (g a) = k) ->
  forall n s, List.length (flat_map g (seq s n)) = n * k.
Proof.
  intros Hg. induction n as [ | n IH]; intros s; simpl; [ reflexivity | ].
  now rewrite length_app, Hg, IH.
Qed.

Lemma flat_map_uniform_nth {A : Type} (g : nat -> list A) (k : nat) (d : A) :
  (forall a, List.length (g a) = k) ->
  forall n s a j, a < n -> j < k ->
    nth (a * k + j) (flat_map g (seq s n)) d = nth j (g (s + a)) d.
Proof.
  intros Hg. induction n as [ | n IH]; intros s a j Ha Hj; [ lia | ].
  simpl. destruct a as [ | a].
  - simpl. rewrite app_nth1 by (rewrite Hg; exact Hj). now rewrite Nat.add_0_r.
  - rewrite app_nth2 by (rewrite Hg; simpl; lia).
    rewrite Hg. replace (S a * k + j - k) with (a * k + j) by (simpl; lia).
    rewrite IH by lia. f_equal. f_equal. lia.
Qed.

(** The elements [f a b c] for [a], [b], [c] running in C order. *)
Definition block3 {A : Type} (f : nat -> nat -> nat -> A) (na nb nc : nat) : list A :=
  flat_map (fun a => flat_map (fun b => flat_map (fun c => [f a b c]) (seq 0 nc))
                              (seq 0 nb))
           (seq 0 na).

Lemma block3_length {A : Type} (f : nat -> nat -> nat -> A) (na nb nc : nat) :
  List.length (block3 f na nb nc) = na * (nb * nc).
Proof.
  unfold block3. apply flat_map_uniform_length. intros a.
  apply flat_map_uniform_length. intros b.
  rewrite (flat_map_uniform_length (fun c => [f a b c]) 1); [ lia | reflexivity ].
Qed.

Lemma block3_nth {A : Type} (f : nat -> nat -> nat -> A) (na nb nc : nat) (d : A)
  (a b c : nat) :
  a < na -> b < nb -> c < nc ->
  nth ((a * nb + b) * nc + c) (block3 f na nb nc) d = f a b c.
Proof.
  intros Ha Hb Hc. unfold block3.
  replace ((a * nb + b) * nc + c) with (a * (nb * nc) + (b * nc + c)) by lia.
  rewrite (flat_map_uniform_nth _ (nb * nc)); [ | | exact Ha | nia ].
  - rewrite (flat_map_uniform_nth _ nc); [ | | exact Hb | exact Hc ].
    + replace c with (c * 1 + 0) at 1 by lia.
      rewrite (flat_map_uniform_nth _ 1); [ reflexivity | reflexivity | exact Hc | lia ].
    + intros b'. rewrite (flat_map_uniform_length _ 1); [ lia | reflexivity ].
  - intros a'. apply flat_map_uniform_length. intros b'.
    rewrite (flat_map_uniform_length _ 1); [ lia | reflexivity ].
Qed.

Lemma flat_map_seq_from {A : Type} (h : nat -> list A) (m : nat) :
  forall s, flat_map h (seq s m) = flat_map (fun b => h (s + b)) (seq 0 m).
Proof.
  induction m as [ | m IH]; intros s; [ reflexivity | ].
  rewrite !seq_S, !flat_map_app, IH. reflexivity.
Qed.

Lemma flat_map_seq_product {A : Type} (h : nat -> list A) (n m : nat) :
  flat_map h (seq 0 (n * m))
  = flat_map (fun a => flat_map (fun b => h (a * m + b)) (seq 0 m)) (seq 0 n).
Proof.
  induction n as [ | n IH]; [ reflexivity | ].
  replace (S n * m) with (n * m + m) by lia.
  rewrite seq_app, flat_map_app, IH, seq_S, flat_map_app.
  f_equal. cbn [flat_map]. rewrite app_nil_r. apply flat_map_seq_from.
Qed.

Lemma read_three_axes (buf : Np.buffer) (na nb nc sa sb sc off : nat) :
  Np.read buf (Np.mk_ndarray [na; nb; nc] [sa; sb; sc] off)
  = block3 (fun a b c => nth (off + a * sa + b * sb + c * sc) buf 0%Z) na nb nc.
Proof.
  unfold Np.read, Np.positions, block3. cbn [Np.shape Np.strides Np.offset Np.offsets].
  rewrite map_flat_map_list. apply flat_map_ext. intros a.
  rewrite map_flat_map_list. apply flat_map_ext. intros b.
  rewrite map_flat_map_list. reflexivity.
Qed.

Lemma read_two_axes (buf : Np.buffer) (na nb sa sb off : nat) :
  Np.read buf (Np.mk_ndarray [na; nb] [sa; sb] off)
  = flat_map (fun a => flat_map (fun b => [nth (off + a * sa + b * sb) buf 0%Z])
                                (seq 0 nb))
             (seq 0 na).
Proof.
  unfold Np.read, Np.positions. cbn [Np.shape Np.strides Np.offset Np.offsets].
  rewrite map_flat_map_list. apply flat_map_ext. intros a.
  rewrite map_flat_map_list. reflexivity.
Qed.

Lemma offsets_contiguous (sh : list nat) :
  forall base, Np.offsets sh (Np.c_strides sh) base = seq base (Np.size sh).
Proof.
  induction sh as [ | n sh IH]; intros base; [ reflexivity | ].
  cbn [Np.c_strides Np.offsets]. fold (Np.size sh).
  change (Np.size (n :: sh)) with (n * Np.size sh).
  rewrite (flat_map_ext _ (fun i => seq (base + i * Np.size sh) (Np.size sh)))
    by (intros i; apply IH).
  generalize (Np.size sh). intros k. clear IH.
  induction n as [ | n IHn]; [ reflexivity | ].
  replace (S n * k) with (n * k + k) by lia.
  rewrite seq_S, flat_map_app, IHn, seq_app. cbn [flat_map]. rewrite app_nil_r.
  reflexivity.
Qed.

Lemma map_nth_seq {A : Type} (l : list A) (d : A) :
  map (fun i => nth i l d) (seq 0 (List.length l)) = l.
Proof.
  induction l as [ | x l IH]; [ reflexivity | ].
  simpl. f_equal. rewrite <- seq_shift, map_map. exact IH.
Qed.

Lemma read_contiguous (buf : Np.buffer) (sh : list nat) :
  List.length buf = Np.size sh -> Np.read buf (Np.contiguous sh) = buf.
Proof.
  intros Hlen. unfold Np.read, Np.positions, Np.contiguous.
  cbn [Np.shape Np.strides Np.offset]. rewrite offsets_contiguous, <- Hlen.
  apply map_nth_seq.
Qed.

(** [reshape_raster_for_ml] needs an array of three axes: on anything else
    it ends in a [ValueError], and only then.  The array of a single-band
    raster has two axes. *)
Theorem reshape_raster_for_ml_needs_three_axes :
  (forall image_array : NpShape.array,
      reshape_raster_for_ml image_array = Raise ValueError
      <-> List.length (Np.shape (snd image_array)) <> 3)
  /\ (forall d : Dataset,
        RasterCount d = 1%Z ->
        reshape_raster_for_ml (pixels d, GetVirtualMemArray d) = Raise ValueError).
Proof.
  assert (Hall : forall image_array : NpShape.array,
             reshape_raster_for_ml image_array = Raise ValueError
             <-> List.length (Np.shape (snd image_array)) <> 3).
  { intros [buf v]. unfold reshape_raster_for_ml. cbn [snd].
    destruct (Np.shape v) as [ | b [ | y [ | x [ | extra sh]]]] eqn:Hsh;
      try (split; [ intros _; discriminate | reflexivity ]).
    split; [ | intros Hne; now elim Hne ].
    unfold NpShape.transpose. rewrite Hsh. cbn [List.length].
    change (NpShape.is_axes [1; 2; 0] 3) with true. cbn iota.
    cbn [bind]. unfold NpShape.reshape. cbn [Np.shape map nth Np.size fold_right].
    replace (x * y * (b * 1)) with (y * (x * (b * 1))) by lia.
    rewrite Nat.eqb_refl. discriminate. }
  split; [ exact Hall | ].
  intros d Hd. apply Hall. cbn [snd]. unfold GetVirtualMemArray.
  rewrite Hd. cbn. discriminate.
Qed.

Lemma reshape_raster_for_ml_three_axes (buf : Np.buffer) (bands y x s0 s1 s2 off : nat) :
  reshape_raster_for_ml (buf, Np.mk_ndarray [bands; y; x] [s0; s1; s2] off)
  = Ok (Np.read buf (Np.mk_ndarray [y; x; bands] [s1; s2; s0] off),
        Np.contiguous [x * y; bands]).
Proof.
  unfold reshape_raster_for_ml. cbn [snd Np.shape].
  unfold NpShape.transpose. cbn [Np.shape List.length].
  change (NpShape.is_axes [1; 2; 0] 3) with true. cbn iota.
  cbn [bind]. unfold NpShape.reshape.
  cbn [Np.shape Np.strides Np.offset map nth Np.size fold_right].
  replace (x * y * (bands * 1)) with (y * (x * (bands * 1))) by lia.
  rewrite Nat.eqb_refl. reflexivity.
Qed.

Lemma reshape_prob_out_to_raster_samples (samples : Np.buffer) (classes y x : nat) :
  reshape_prob_out_to_raster (samples, Np.contiguous [x * y; classes]) x y
  = Ok (Np.read samples (Np.mk_ndarray [classes; x * y] [1; classes * 1] 0),
        Np.contiguous [classes; y; x]).
Proof.
  change (Np.contiguous [x * y; classes])
    with (Np.mk_ndarray [x * y; classes] [classes * 1; 1] 0).
  unfold reshape_prob_out_to_raster. cbn [snd Np.shape item nth_error bind].
  unfold NpShape.transpose. cbn [Np.shape List.length].
  change (NpShape.is_axes [1; 0] 2) with true. cbn iota.
  cbn [bind]. unfold NpShape.reshape.
  cbn [Np.shape Np.strides Np.offset map nth Np.size fold_right].
  replace (classes * (y * (x * 1))) with (classes * (x * y * 1)) by lia.
  rewrite Nat.eqb_refl. reflexivity.
Qed.

(** [reshape_prob_out_to_raster] undoes [reshape_raster_for_ml]: an array
    of [bands] by [y] by [x] values, turned into [x * y] samples of
    [bands] values and back with [width = x] and [height = y], is the
    array it was, element for element. *)
Theorem reshape_prob_out_to_raster_inverts_reshape_raster_for_ml
  (buf : Np.buffer) (bands y x s0 s1 s2 off : nat) :
  exists samples back : NpShape.array,
    reshape_raster_for_ml (buf, Np.mk_ndarray [bands; y; x] [s0; s1; s2] off) = Ok samples
    /\ Np.shape (snd samples) = [x * y; bands]
    /\ reshape_prob_out_to_raster samples x y = Ok back
    /\ Np.shape (snd back) = [bands; y; x]
    /\ NpShape.elements back
       = NpShape.elements (buf, Np.mk_ndarray [bands; y; x] [s0; s1; s2] off).
Proof.
  do 2 eexists.
  split; [ apply reshape_raster_for_ml_three_axes | ].
  split; [ reflexivity | ].
  split; [ apply reshape_prob_out_to_raster_samples | ].
  split; [ reflexivity | ].
  unfold NpShape.elements. cbn [fst snd].
  set (samples := Np.read buf (Np.mk_ndarray [y; x; bands] [s1; s2; s0] off)).
  set (tview := Np.mk_ndarray [bands; x * y] [1; bands * 1] 0).
  assert (Hlen : List.length (Np.read samples tview) = Np.size [bands; y; x]).
  { unfold tview. rewrite read_two_axes.
    rewrite (flat_map_uniform_length _ (x * y)).
    - cbn [Np.size fold_right]. lia.
    - intros a. rewrite (flat_map_uniform_length _ 1); [ lia | reflexivity ]. }
  rewrite (read_contiguous _ _ Hlen).
  unfold tview, samples. rewrite read_two_axes, !read_three_axes.
  unfold block3 at 2. apply flat_map_ext_In. intros b Hb. apply in_seq in Hb.
  rewrite (Nat.mul_comm x y), flat_map_seq_product.
  apply flat_map_ext_In. intros r Hr. apply in_seq in Hr.
  apply flat_map_ext_In. intros c Hc. apply in_seq in Hc.
  f_equal.
  replace (0 + b * 1 + (r * x + c) * (bands * 1)) with ((r * x + c) * bands + b) by lia.
  rewrite block3_nth by lia. f_equal. lia.
Qed.

End Reshaping.

(** * Where the bands of a stack are written *)

(** ** Writing through a view and reading back *)

Section BufferWrites.

Local Open Scope nat_scope.














End BufferWrites.

(** ** The copying loop of [stack_images] *)

Section BandLayout.

Context {ogr : OGR}.












End BandLayout.

Section BandLayoutSamples.

Local Open Scope string_scope.


End BandLayoutSamples.
